(** * simulacra_compute_embeddings.py: precomputing CLIP embeddings

    A shallow embedding of [scorer/simulacra_aesthetic_models/
    simulacra_compute_embeddings.py] and the properties of its rating
    query, its dataset, its batch loop and its output bundle.

    Conventions.
    - The file system is a finite map from path strings to file contents;
      two spellings of one path are two locations.
    - Python exceptions are values of [Exn]; code that can raise returns a
      [Result]; [main], which also writes files, lives in the monad [M].
    - Numbers that are floating point in the script (the SQL average, the
      rating tensor) are exact rationals here; rounding is not modelled.
    - The encoder and the image library are external: they are fields of
      records ([ClipModule], [ClipModel]) and a section variable. *)

From Stdlib Require Import Ascii String QArith Qcanon Sorted.
From stdpp Require Import base option list numbers strings gmap.

Open Scope string_scope.
Open Scope list_scope.

(** ** Exceptions and results *)

Inductive Exn : Type :=
| NameError (name : string)      (* a global name that is bound nowhere *)
| AttributeError (name : string) (* the global is bound to something else *)
| StartMethodError               (* ValueError: start method not on this platform *)
| EncoderError                   (* RuntimeError raised by clip.load *)
| StoreUnavailable               (* sqlite3: unable to open database file *)
| NotADatabase                   (* sqlite3: file is not a database *)
| SchemaError                    (* sqlite3: no such table / no such column *)
| ValueError                     (* DataLoader rejects batch_size or num_workers *)
| PicklingError                  (* TypeError: cannot pickle 'sqlite3.Connection' *)
| IndexError                     (* list index out of range *)
| ImageLoadError (path : string) (* PIL: file missing or not an image *)
| TensorTypeError                (* torch.tensor(None) *)
| CollateTypeError               (* default_collate on a PIL image *)
| CatEmptyError                  (* torch.cat: expected a non-empty list of Tensors *)
| SerializationError.            (* torch.save cannot write the file *)

Definition Result (A : Type) : Type := Exn + A.

Definition Ok {A} (a : A) : Result A := inr a.
Definition Err {A} (e : Exn) : Result A := inl e.

Definition rbind {A B} (c : Result A) (k : A → Result B) : Result B :=
  match c with
  | inl e => inl e
  | inr a => k a
  end.

Notation "'try' x ':=' c 'in' k" := (rbind c (λ x, k))
  (at level 10, x pattern, c at level 100, k at level 200,
   format "'[v' 'try'  x  ':='  c  'in' '/' k ']'").

(** ** The rating store

    Four relations.  A relation is [None] when the table, or a column of
    it that the query names, is absent from the database.  Key columns
    are integers; a rating cell may be SQL NULL ([None]), as any SQLite
    column without a NOT NULL constraint may. *)

Record GenerationRow := { gen_id : Z }.
Record ImageRow := { img_id : Z; img_gid : Z; img_idx : Z }.
Record RatingRow := { rat_iid : Z; rat_rating : option Qc }.
Record PathRow := { path_iid : Z; path_path : string }.

Record Database := {
  tbl_generations : option (list GenerationRow);
  tbl_images : option (list ImageRow);
  tbl_ratings : option (list RatingRow);
  tbl_paths : option (list PathRow)
}.

(** What [sqlite3.connect] leaves behind at a location that held nothing. *)
Definition empty_database : Database :=
  {| tbl_generations := None; tbl_images := None;
     tbl_ratings := None; tbl_paths := None |}.

(** A row of
    [images JOIN generations ON images.gid=generations.id
            JOIN ratings ON images.id=ratings.iid
            JOIN paths ON images.id=paths.iid]. *)
Record JoinRow := {
  jr_iid : Z;               (* images.id *)
  jr_gid : Z;               (* generations.id *)
  jr_idx : Z;               (* images.idx *)
  jr_path : string;         (* paths.path *)
  jr_rating : option Qc     (* ratings.rating *)
}.

Definition join_image (gens : list GenerationRow) (rats : list RatingRow)
    (pths : list PathRow) (img : ImageRow) : list JoinRow :=
  g ← filter (λ g, gen_id g = img_gid img) gens;
  r ← filter (λ r, rat_iid r = img_id img) rats;
  p ← filter (λ p, path_iid p = img_id img) pths;
  [ {| jr_iid := img_id img; jr_gid := gen_id g; jr_idx := img_idx img;
       jr_path := path_path p; jr_rating := rat_rating r |} ].

Definition joined_rows (gens : list GenerationRow) (imgs : list ImageRow)
    (rats : list RatingRow) (pths : list PathRow) : list JoinRow :=
  img ← imgs; join_image gens rats pths img.

(** [GROUP BY images.id].  SQLite forms the groups by ordering the joined
    rows on the key, so groups come out by ascending key and rows keep
    their join order inside a group.  A group is its first row and the
    rows that followed it. *)
Definition Group : Type := Z * (JoinRow * list JoinRow).

Fixpoint group_insert (r : JoinRow) (gs : list Group) : list Group :=
  match gs with
  | [] => [(jr_iid r, (r, []))]
  | (k, (r0, rest)) :: gs' =>
      if (jr_iid r <? k)%Z then (jr_iid r, (r, [])) :: gs
      else if (jr_iid r =? k)%Z then (k, (r0, rest ++ [r])) :: gs'
      else (k, (r0, rest)) :: group_insert r gs'
  end.

Definition group_by_image (rows : list JoinRow) : list Group :=
  foldl (λ gs r, group_insert r gs) [] rows.

Definition group_rows (g : Group) : list JoinRow := g.2.1 :: g.2.2.

(** SQL aggregates. *)
Definition Qc_sum (xs : list Qc) : Qc := foldr Qcplus 0%Qc xs.

Definition mean (xs : list Qc) : option Qc :=
  match xs with
  | [] => None
  | _ => Some (Qc_sum xs / Qc_of_Z (Z.of_nat (length xs)))%Qc
  end.

(** [AVG(x)] skips NULLs and is NULL when no value is left. *)
Definition AVG (cells : list (option Qc)) : option Qc :=
  mean (omap id cells).

(** A result row [(generations.id, images.idx, paths.path, AVG(ratings.rating))],
    the tuple that [__getitem__] unpacks as [gid, idx, filename, rating].
    The three bare columns come from one row of the group; which row is
    left open by SQLite and depends on its query plan.  The model takes
    the first in join order, and no statement below depends on which row
    it is. *)
Record RatingRecord := {
  gid : Z;
  idx : Z;
  filename : string;
  rating : option Qc
}.

Definition select_record (g : Group) : RatingRecord :=
  {| gid := jr_gid g.2.1; idx := jr_idx g.2.1; filename := jr_path g.2.1;
     rating := AVG (jr_rating <$> group_rows g) |}.

Definition query_groups (d : Database) : Result (list Group) :=
  match tbl_images d, tbl_generations d, tbl_ratings d, tbl_paths d with
  | Some imgs, Some gens, Some rats, Some pths =>
      Ok (group_by_image (joined_rows gens imgs rats pths))
  | _, _, _, _ => Err SchemaError
  end.

(** [conn.execute("SELECT ... GROUP BY images.id")], all rows fetched. *)
Definition execute_query (d : Database) : Result (list RatingRecord) :=
  try gs := query_groups d in Ok (select_record <$> gs).

(** The image identifier each returned row stands for (the row itself
    does not carry it). *)
Definition record_keys (d : Database) : list Z :=
  match query_groups d with
  | inr gs => fst <$> gs
  | inl _ => []
  end.

(** ** Command line and platform *)

Inductive StartMethod := fork | forkserver | spawn.

(** The namespace [args] that [p.parse_args()] returns. *)
Record Args := {
  batch_size : Z;              (* --batch-size, default 10 *)
  clip_model : string;         (* --clip-model, default "ViT-B/16" *)
  db : string;                 (* --db, required *)
  device : option string;      (* --device, None when absent *)
  images_dir : string;         (* --images-dir, required *)
  num_workers : Z;             (* --num-workers, default 8 *)
  output : string;             (* --output, required *)
  start_method : StartMethod   (* --start-method, default spawn *)
}.

(** What the torch build and the operating system offer. *)
Record TorchEnv := {
  cuda_is_built : bool;                 (* torch.backends.cuda.is_built() *)
  mps_is_built : bool;                  (* torch.backends.mps.is_built() *)
  start_methods : list StartMethod      (* mp.get_all_start_methods() *)
}.

Definition Device : Type := string.
Definition torch_device (name : string) : Device := name.

(** Python truth value of [args.device]: None and "" are false. *)
Definition truthy (o : option string) : bool :=
  match o with
  | Some (String _ _) => true
  | _ => false
  end.

(** Lines 69-76 of [main]. *)
Definition resolve_device (env : TorchEnv) (args : Args) : Device :=
  let args_device := device args in
  let device := torch_device "cpu" in
  if truthy args_device then
    torch_device device
  else
    let device := if cuda_is_built env then torch_device "cuda" else device in
    let device := if mps_is_built env then torch_device "mps" else device in
    device.

Definition StartMethod_eqb (a b : StartMethod) : bool :=
  match a, b with
  | fork, fork | forkserver, forkserver | spawn, spawn => true
  | _, _ => false
  end.

(** [mp.set_start_method(m)] in a fresh process. *)
Definition set_start_method (env : TorchEnv) (m : StartMethod) : Result unit :=
  if existsb (StartMethod_eqb m) (start_methods env) then Ok () else Err StartMethodError.

(** [Path(images_dir) / filename]: an absolute right operand replaces the
    left one.  Normalisation is not modelled: the result is the directory
    as given, a slash and the file name, so a trailing slash or an empty
    directory give a spelling that pathlib would simplify. *)
Definition path_join (dir file : string) : string :=
  match file with
  | String "/"%char _ => file
  | _ => dir +:+ "/" +:+ file
  end.

(** ** torch.utils.data: the sequential sampler and the batch sampler *)

(** [SequentialSampler]: [iter(range(len(dataset)))]. *)
Definition sequential_sampler (n : nat) : list nat := seq 0 n.

(** [BatchSampler.__iter__] with [drop_last=False]: append each index to
    the batch under construction, yield it when it holds [bs] indices,
    and yield what is left at the end if it is not empty. *)
Fixpoint batch_sampler_from (bs : nat) (batch : list nat) (sampler : list nat)
    : list (list nat) :=
  match sampler with
  | [] => if (0 <? length batch)%nat then [batch] else []
  | i :: rest =>
      let batch := batch ++ [i] in
      if (length batch =? bs)%nat then batch :: batch_sampler_from bs [] rest
      else batch_sampler_from bs batch rest
  end.

Definition batch_sampler (bs : nat) (sampler : list nat) : list (list nat) :=
  batch_sampler_from bs [] sampler.

(** [torch.cat]: refuses the empty list. *)
Definition torch_cat {A} (tensors : list (list A)) : Result (list A) :=
  match tensors with
  | [] => Err CatEmptyError
  | _ => Ok (concat tensors)
  end.

(** [torch.tensor(rating)]: a number becomes a scalar tensor, None raises. *)
Definition torch_tensor (rating : option Qc) : Result Qc :=
  match rating with
  | Some q => Ok q
  | None => Err TensorTypeError
  end.

(** Worker processes are started when iteration begins.  Every start
    method but fork pickles the dataset, and the dataset holds the
    sqlite3 connection, which cannot be pickled. *)
Definition start_workers (m : StartMethod) (num_workers : nat) : Result unit :=
  if (0 <? num_workers)%nat && negb (StartMethod_eqb m fork)
  then Err PicklingError else Ok ().

Section Pipeline.

Context {Image Pixels Emb : Type}.

(** [PIL.Image.Image.convert("RGB")]. *)
Variable convert_RGB : Image → Image.

(** *** The external encoder *)

(** What [clip.load] returns: the preprocessing transform and the model,
    whose [encode_image] maps a batch of pixel tensors to a batch of
    embeddings. *)
Record ClipModel := {
  clip_tf : Image → Pixels;
  encode_image : list Pixels → list Emb
}.

(** The [clip] package: [load name device] raises for a model it does
    not know. *)
Record ClipModule := {
  load : string → Device → option ClipModel
}.

Inductive PyObject :=
| ModuleObj (name : string)
| ClassObj (name : string)
| FunctionObj (name : string)
| StrObj (s : string)
| ClipObj (c : ClipModule).

(** The module namespace after the script's own import statements and
    definitions (lines 3-15, 18, 46).  No builtin is called [clip]. *)
Definition script_globals : gmap string PyObject :=
  list_to_map [
    ("__doc__", StrObj "Precomputes CLIP embeddings for Simulacra Aesthetic Captions.");
    ("argparse", ModuleObj "argparse");
    ("os", ModuleObj "os");
    ("sqlite3", ModuleObj "sqlite3");
    ("Path", ClassObj "pathlib.Path");
    ("torch", ModuleObj "torch");
    ("transforms", ModuleObj "torchvision.transforms");
    ("Image", ModuleObj "PIL.Image");
    ("mp", ModuleObj "torch.multiprocessing");
    ("data", ModuleObj "torch.utils.data");
    ("tqdm", ClassObj "tqdm.tqdm");
    ("SimulacraDataset", ClassObj "SimulacraDataset");
    ("main", FunctionObj "main")
  ].

(** Evaluating the expression [clip.load] in a namespace. *)
Definition load_global_clip (globals : gmap string PyObject) : Result ClipModule :=
  match globals !! "clip" with
  | None => Err (NameError "clip")
  | Some (ClipObj c) => Ok c
  | Some _ => Err (AttributeError "load")
  end.

Definition clip_load (c : ClipModule) (name : string) (dev : Device) : Result ClipModel :=
  match load c name dev with
  | Some m => Ok m
  | None => Err EncoderError
  end.

(** *** Files and the world *)

(** The output bundle, the dict passed to [torch.save]. *)
Record Bundle := {
  obj_clip_model : string;
  obj_embeds : list Emb;
  obj_ratings : list Qc
}.

(** A zero-length file is [DbFile empty_database]. *)
Inductive File :=
| DbFile (d : Database)
| ImageFile (img : Image)
| BundleFile (b : Bundle)
| OtherFile.

(** [writable p]: a file can be created or replaced at [p]. *)
Record World := {
  files : gmap string File;
  writable : string → bool
}.

Definition write_file (p : string) (f : File) (w : World) : World :=
  {| files := <[p := f]> (files w); writable := writable w |}.

(** Computations that may raise and may change the world. *)
Definition M (A : Type) : Type := World → Result A * World.

Definition M_bind {A B} (c : M A) (k : A → M B) : M B :=
  λ w, match c w with
       | (inl e, w') => (inl e, w')
       | (inr a, w') => k a w'
       end.

Definition lift {A} (r : Result A) : M A := λ w, (r, w).
Definition read {A} (f : World → Result A) : M A := λ w, (f w, w).

Notation "'run' x ':=' c 'in' k" := (M_bind c (λ x, k))
  (at level 10, x pattern, c at level 100, k at level 200,
   format "'[v' 'run'  x  ':='  c  'in' '/' k ']'").

(** *** sqlite3 *)

(** [sqlite3.connect(db)]: the default mode opens the file for reading
    and writing and creates it when it does not exist.  The connection
    is the location it was opened on. *)
Definition sqlite3_connect (db : string) : M string :=
  λ w, match files w !! db with
       | Some _ => (Ok db, w)
       | None =>
           if writable w db
           then (Ok db, write_file db (DbFile empty_database) w)
           else (Err StoreUnavailable, w)
       end.

(** [conn.execute(query)] for the one query of the script. *)
Definition conn_execute (conn : string) : M (list RatingRecord) :=
  read (λ w, match files w !! conn with
             | Some (DbFile d) => execute_query d
             | Some _ => Err NotADatabase
             | None => Err StoreUnavailable
             end).

(** *** class SimulacraDataset *)

Record SimulacraDataset := {
  self_images_dir : string;
  self_transform : option (Image → Pixels);
  self_conn : string;
  self_ratings : list RatingRecord
}.

(** [SimulacraDataset.__init__]: the Rating Store Reader. *)
Definition SimulacraDataset_init (images_dir db : string)
    (transform : option (Image → Pixels)) : M SimulacraDataset :=
  run conn := sqlite3_connect db in
  run rows := conn_execute conn in
  lift (Ok {| self_images_dir := images_dir; self_transform := transform;
              self_conn := conn; self_ratings := [] ++ rows |}).

(** [SimulacraDataset.__len__]. *)
Definition SimulacraDataset_len (self : SimulacraDataset) : nat :=
  length (self_ratings self).

(** [Image.open(path)]. *)
Definition Image_open (w : World) (path : string) : Result Image :=
  match files w !! path with
  | Some (ImageFile img) => Ok img
  | _ => Err (ImageLoadError path)
  end.

(** First component of a sample: the PIL image, or what the transform
    made of it. *)
Inductive SampleImage :=
| PILImage (img : Image)
| Tensor (p : Pixels).

Definition Sample : Type := SampleImage * Qc.

(** [SimulacraDataset.__getitem__]. *)
Definition SimulacraDataset_getitem (self : SimulacraDataset) (w : World)
    (key : nat) : Result Sample :=
  match self_ratings self !! key with
  | None => Err IndexError
  | Some r =>
      try image := Image_open w (path_join (self_images_dir self) (filename r)) in
      let image := convert_RGB image in
      let image := match self_transform self with
                   | Some transform => Tensor (transform image)
                   | None => PILImage image
                   end in
      try rating := torch_tensor (rating r) in
      Ok (image, rating)
  end.

(** *** data.DataLoader *)

Record DataLoader := {
  dl_dataset : SimulacraDataset;
  dl_batch_size : nat;
  dl_num_workers : nat
}.

(** [data.DataLoader(dataset, batch_size, num_workers=num_workers)]. *)
Definition DataLoader_new (dataset : SimulacraDataset) (batch_size num_workers : Z)
    : Result DataLoader :=
  if (num_workers <? 0)%Z then Err ValueError
  else if (batch_size <=? 0)%Z then Err ValueError
  else Ok {| dl_dataset := dataset; dl_batch_size := Z.to_nat batch_size;
             dl_num_workers := Z.to_nat num_workers |}.

(** The index batches of a loader: sequential sampler, batch sampler. *)
Definition DataLoader_batches (loader : DataLoader) : list (list nat) :=
  batch_sampler (dl_batch_size loader)
    (sequential_sampler (SimulacraDataset_len (dl_dataset loader))).

(** The fetcher: [[dataset[i] for i in batch]]. *)
Fixpoint fetch (dataset : SimulacraDataset) (w : World) (batch : list nat)
    : Result (list Sample) :=
  match batch with
  | [] => Ok []
  | i :: rest =>
      try s := SimulacraDataset_getitem dataset w i in
      try ss := fetch dataset w rest in
      Ok (s :: ss)
  end.

(** [default_collate]: stacks the image tensors and the rating tensors;
    it has no rule for PIL images. *)
Fixpoint default_collate (samples : list Sample) : Result (list Pixels * list Qc) :=
  match samples with
  | [] => Ok ([], [])
  | (PILImage _, _) :: _ => Err CollateTypeError
  | (Tensor p, r) :: rest =>
      try (ps, rs) := default_collate rest in
      Ok (p :: ps, r :: rs)
  end.

(** One step of the loader's iterator. *)
Definition next_batch (loader : DataLoader) (w : World) (batch : list nat)
    : Result (list Pixels * list Qc) :=
  try samples := fetch (dl_dataset loader) w batch in
  default_collate samples.

(** *** main *)

(** The body of [for batch in tqdm(loader)] (lines 88-91), run over the
    index batches still to come, with the two accumulating lists. *)
Fixpoint main_loop (clip_model : ClipModel) (loader : DataLoader) (w : World)
    (batches : list (list nat)) (embeds : list (list Emb)) (ratings : list (list Qc))
    : Result (list (list Emb) * list (list Qc)) :=
  match batches with
  | [] => Ok (embeds, ratings)
  | b :: rest =>
      try (images_batch, ratings_batch) := next_batch loader w b in
      let embeds := embeds ++ [encode_image clip_model images_batch] in
      let ratings := ratings ++ [ratings_batch] in
      main_loop clip_model loader w rest embeds ratings
  end.

(** [torch.save(obj, path)]: the file is opened for writing first. *)
Definition torch_save (obj : Bundle) (path : string) : M unit :=
  λ w, if writable w path
       then (Ok (), write_file path (BundleFile obj) w)
       else (Err SerializationError, w).

(** [main], from the parsed [args] on (lines 68-99).  [globals] is the
    module namespace [main] runs in; the progress bar and the print of
    the device are not modelled. *)
Definition main (globals : gmap string PyObject) (env : TorchEnv) (args : Args)
    : M unit :=
  run _ := lift (set_start_method env (start_method args)) in
  let device := resolve_device env args in
  run clip := lift (load_global_clip globals) in
  run model := lift (clip_load clip (clip_model args) device) in
  let clip_tf := clip_tf model in
  run dataset := SimulacraDataset_init (images_dir args) (db args) (Some clip_tf) in
  run loader := lift (DataLoader_new dataset (batch_size args) (num_workers args)) in
  run (embeds, ratings) :=
    read (λ w,
      try _ := start_workers (start_method args) (dl_num_workers loader) in
      main_loop model loader w (DataLoader_batches loader) [] []) in
  run embeds := lift (torch_cat embeds) in
  run ratings := lift (torch_cat ratings) in
  let obj := {| obj_clip_model := clip_model args; obj_embeds := embeds;
                obj_ratings := ratings |} in
  torch_save obj (output args).

End Pipeline.

(** ** Notions the statements below are written in *)

(** The rating values the store holds for image [i]: the non-NULL cells
    of the rating rows that name it. *)
Definition rating_values (rats : list RatingRow) (i : Z) : list Qc :=
  omap rat_rating (filter (λ r, rat_iid r = i) rats).

(** An image identifier that the three inner joins leave in the result. *)
Definition image_joined (gens : list GenerationRow) (imgs : list ImageRow)
    (rats : list RatingRow) (pths : list PathRow) (i : Z) : Prop :=
  ∃ img, img ∈ imgs ∧ img_id img = i ∧
         (∃ g, g ∈ gens ∧ gen_id g = img_gid img) ∧
         (∃ rt, rt ∈ rats ∧ rat_iid rt = i) ∧
         (∃ p, p ∈ pths ∧ path_iid p = i).

(** The keys of a list of groups, and the invariant of [group_insert]. *)
Definition keys (gs : list Group) : list Z := fst <$> gs.

Definition keys_sorted (gs : list Group) : Prop := StronglySorted Z.lt (keys gs).

(** Each group holds the rows seen so far that carry its key. *)
Definition groups_of (rows : list JoinRow) (gs : list Group) : Prop :=
  keys_sorted gs ∧
  (∀ r, r ∈ rows → jr_iid r ∈ keys gs) ∧
  (∀ g, g ∈ gs → group_rows g = filter (λ r, jr_iid r = g.1) rows).

(** A natural number as a rational. *)
Definition Qn (k : nat) : Qc := Qc_of_Z (Z.of_nat k).

(** Sum and count of the non-NULL rating cells of a list of joined rows. *)
Definition cell_sum (rows : list JoinRow) : Qc := Qc_sum (omap jr_rating rows).
Definition cell_count (rows : list JoinRow) : nat := length (omap jr_rating rows).

(** [args] with another [--batch-size]. *)
Definition set_batch_size (bs : Z) (args : Args) : Args :=
  {| batch_size := bs; clip_model := clip_model args; db := db args;
     device := device args; images_dir := images_dir args;
     num_workers := num_workers args; output := output args;
     start_method := start_method args |}.

(** ** Concrete stores, worlds and command lines

    Images are numbers here, the transform doubles and the encoder adds
    one to every row. *)

Module Example.

Definition q (n : Z) : option Qc := Some (Qc_of_Z n).

(** Image 1 has ratings 2 and 4, image 2 has rating 5, image 3 has
    ratings 1, 2 and 6; every image has one path and one generation. *)
Definition store : Database :=
  {| tbl_generations := Some [ {| gen_id := 10 |}; {| gen_id := 20 |} ];
     tbl_images := Some [ {| img_id := 1; img_gid := 10; img_idx := 0 |};
                          {| img_id := 2; img_gid := 10; img_idx := 1 |};
                          {| img_id := 3; img_gid := 20; img_idx := 0 |} ];
     tbl_ratings := Some [ {| rat_iid := 1; rat_rating := q 2 |};
                           {| rat_iid := 2; rat_rating := q 5 |};
                           {| rat_iid := 1; rat_rating := q 4 |};
                           {| rat_iid := 3; rat_rating := q 1 |};
                           {| rat_iid := 3; rat_rating := q 2 |};
                           {| rat_iid := 3; rat_rating := q 6 |} ];
     tbl_paths := Some [ {| path_iid := 1; path_path := "a.png" |};
                         {| path_iid := 2; path_path := "b.png" |};
                         {| path_iid := 3; path_path := "c.png" |} ] |}.

(** The same store, but nobody rated image 2. *)
Definition store_unrated : Database :=
  {| tbl_generations := tbl_generations store;
     tbl_images := tbl_images store;
     tbl_ratings := Some [ {| rat_iid := 1; rat_rating := q 2 |};
                           {| rat_iid := 1; rat_rating := q 4 |};
                           {| rat_iid := 3; rat_rating := q 1 |} ];
     tbl_paths := tbl_paths store |}.

(** One image whose only rating row holds NULL. *)
Definition store_null : Database :=
  {| tbl_generations := Some [ {| gen_id := 10 |} ];
     tbl_images := Some [ {| img_id := 1; img_gid := 10; img_idx := 0 |} ];
     tbl_ratings := Some [ {| rat_iid := 1; rat_rating := None |} ];
     tbl_paths := Some [ {| path_iid := 1; path_path := "a.png" |} ] |}.

(** The four relations, with no row in any. *)
Definition store_empty : Database :=
  {| tbl_generations := Some []; tbl_images := Some [];
     tbl_ratings := Some []; tbl_paths := Some [] |}.

Definition model : @ClipModel Z Z Z :=
  {| clip_tf := λ img, (2 * img)%Z;
     encode_image := λ batch, (λ p, (p + 1)%Z) <$> batch |}.

Definition clip : @ClipModule Z Z Z :=
  {| load := λ name _, if String.eqb name "ViT-B/16" then Some model else None |}.

(** The namespace of the script with the missing [import clip] supplied. *)
Definition globals : gmap string (@PyObject Z Z Z) :=
  <["clip" := ClipObj clip]> script_globals.

Definition env : TorchEnv :=
  {| cuda_is_built := true; mps_is_built := false;
     start_methods := [fork; forkserver; spawn] |}.

(** [--db sac.db --images-dir imgs --output out.pt --num-workers 0]. *)
Definition args : Args :=
  {| batch_size := 10; clip_model := "ViT-B/16"; db := "sac.db"; device := None;
     images_dir := "imgs"; num_workers := 0; output := "out.pt";
     start_method := spawn |}.

(** The same with the default [--num-workers 8]. *)
Definition args_default : Args :=
  {| batch_size := 10; clip_model := "ViT-B/16"; db := "sac.db"; device := None;
     images_dir := "imgs"; num_workers := 8; output := "out.pt";
     start_method := spawn |}.

(** The same with [--device cuda]. *)
Definition args_cuda : Args :=
  {| batch_size := 10; clip_model := "ViT-B/16"; db := "sac.db";
     device := Some "cuda"; images_dir := "imgs"; num_workers := 0;
     output := "out.pt"; start_method := spawn |}.

Definition world_with (d : Database) : @World Z Z :=
  {| files := list_to_map [ ("sac.db", DbFile d);
                            ("imgs/a.png", ImageFile 100%Z);
                            ("imgs/b.png", ImageFile 200%Z);
                            ("imgs/c.png", ImageFile 300%Z) ];
     writable := λ _, true |}.

Definition world : @World Z Z := world_with store.

(** [imgs/b.png] has been removed. *)
Definition world_missing : @World Z Z :=
  {| files := delete "imgs/b.png" (files world); writable := λ _, true |}.

(** Nothing exists at [sac.db] yet. *)
Definition world_nodb : @World Z Z :=
  {| files := delete "sac.db" (files world); writable := λ _, true |}.

(** The records the reader returns on [store], the dataset [main]
    builds from them, and a loader over it with batches of two. *)
Definition records : list RatingRecord :=
  match execute_query store with
  | inr rs => rs
  | inl _ => []
  end.

Definition dataset : @SimulacraDataset Z Z :=
  {| self_images_dir := "imgs"; self_transform := Some (clip_tf model);
     self_conn := "sac.db"; self_ratings := records |}.

Definition loader2 : @DataLoader Z Z :=
  {| dl_dataset := dataset; dl_batch_size := 2; dl_num_workers := 0 |}.

(** A loader over seven records with batches of three. *)
Definition loader7 : @DataLoader Z Z :=
  {| dl_dataset := {| self_images_dir := "imgs"; self_transform := Some (clip_tf model);
                      self_conn := "sac.db";
                      self_ratings := replicate 7 {| gid := 10; idx := 0;
                                                     filename := "a.png";
                                                     rating := q 3 |} |};
     dl_batch_size := 3; dl_num_workers := 0 |}.



(** Eleven images, each rated once, with their files. *)
Definition names11 : list string :=
  ["a.png"; "b.png"; "c.png"; "d.png"; "e.png"; "f.png"; "g.png"; "h.png";
   "i.png"; "j.png"; "k.png"].

Definition store11 : Database :=
  {| tbl_generations := Some [ {| gen_id := 10 |} ];
     tbl_images := Some (imap (λ i _, {| img_id := Z.of_nat (S i); img_gid := 10;
                                         img_idx := Z.of_nat i |}) names11);
     tbl_ratings := Some (imap (λ i _, {| rat_iid := Z.of_nat (S i);
                                          rat_rating := q (Z.of_nat i) |}) names11);
     tbl_paths := Some (imap (λ i n, {| path_iid := Z.of_nat (S i);
                                        path_path := n |}) names11) |}.

Definition world11 : @World Z Z :=
  {| files := list_to_map (("sac.db", DbFile store11)
                :: imap (λ i n, ("imgs/" +:+ n, ImageFile (Z.of_nat i))) names11);
     writable := λ _, true |}.

End Example.

(** * The model at work *)

Example mean_of_2_and_4 : mean [Qc_of_Z 2; Qc_of_Z 4] = Some (Qc_of_Z 3).
Proof. unfold mean. f_equal. apply Qc_is_canon. reflexivity. Qed.

Example store_record_keys : record_keys Example.store = [1; 2; 3]%Z.
Proof. reflexivity. Qed.

Example store_records :
  ∃ rs, execute_query Example.store = Ok rs ∧
        filename <$> rs = ["a.png"; "b.png"; "c.png"] ∧
        (λ r, Qcanon.this <$> rating r) <$> rs = [Some 3%Q; Some 5%Q; Some 3%Q].
Proof. eexists. split; [reflexivity|]. split; reflexivity. Qed.

Example seven_indices_by_three :
  batch_sampler 3 (sequential_sampler 7) = [[0; 1; 2]; [3; 4; 5]; [6]].
Proof. reflexivity. Qed.

Example device_detected : resolve_device Example.env Example.args = "cuda".
Proof. reflexivity. Qed.

(** When both back ends are built the second test overrides the first. *)
Example device_detected_both :
  resolve_device {| cuda_is_built := true; mps_is_built := true;
                    start_methods := [fork; forkserver; spawn] |} Example.args = "mps".
Proof. reflexivity. Qed.

Example run_writes_bundle :
  ∃ obj,
    files (main (λ img : Z, img) Example.globals Example.env Example.args
             Example.world).2 !! "out.pt" = Some (BundleFile obj) ∧
    obj_clip_model obj = "ViT-B/16" ∧
    obj_embeds obj = [201; 401; 601]%Z ∧
    Qcanon.this <$> obj_ratings obj = [3%Q; 5%Q; 3%Q].
Proof. eexists. split; [reflexivity|]. repeat split; reflexivity. Qed.

(** With the default worker count and start method the workers cannot
    be started, clip or no clip. *)
Example default_workers_cannot_start :
  (main (λ img : Z, img) Example.globals Example.env Example.args_default
     Example.world).1 = Err PicklingError.
Proof. reflexivity. Qed.

(** * Properties *)

(** ** The query *)

Section GroupBy.

Lemma filter_none {A} (P : A → Prop) `{!∀ x, Decision (P x)} (l : list A) :
  (∀ x, x ∈ l → ¬ P x) → filter P l = [].
Proof.
  induction l as [|x l IH]; intros Hl; [done|].
  rewrite filter_cons_False by (apply Hl; left).
  apply IH. intros y Hy. apply Hl. by right.
Qed.


Lemma group_insert_keys r gs i :
  i ∈ keys (group_insert r gs) ↔ i = jr_iid r ∨ i ∈ keys gs.
Proof.
  unfold keys. induction gs as [|[k [r0 rest]] gs IH]; simpl.
  - rewrite list_elem_of_singleton, elem_of_nil. tauto.
  - destruct (Z.ltb_spec (jr_iid r) k); [|destruct (Z.eqb_spec (jr_iid r) k)]; simpl;
      rewrite ?elem_of_cons, ?IH; simpl; intuition congruence.
Qed.


Lemma group_insert_sorted r gs :
  keys_sorted gs → keys_sorted (group_insert r gs).
Proof.
  unfold keys_sorted.
  induction gs as [|[k [r0 rest]] gs IH]; simpl; intros Hs.
  - repeat constructor.
  - apply StronglySorted_inv in Hs as [Hs Hk].
    destruct (Z.ltb_spec (jr_iid r) k); [|destruct (Z.eqb_spec (jr_iid r) k)]; simpl.
    + constructor; [by constructor|].
      constructor; [done|]. eapply Forall_impl; [exact Hk|]. simpl; intros; lia.
    + by constructor.
    + constructor; [by apply IH|].
      apply Forall_forall. intros i Hi.
      apply (group_insert_keys r gs i) in Hi as [->|Hi]; [lia|].
      by eapply Forall_forall in Hk.
Qed.


Lemma group_insert_elem r gs g' :
  keys_sorted gs → g' ∈ group_insert r gs →
  (g' = (jr_iid r, (r, [])) ∧ jr_iid r ∉ keys gs) ∨
  (∃ r0 rest, (jr_iid r, (r0, rest)) ∈ gs ∧ g' = (jr_iid r, (r0, rest ++ [r]))) ∨
  (g'.1 ≠ jr_iid r ∧ g' ∈ gs).
Proof.
  unfold keys_sorted, keys.
  induction gs as [|[k [r0 rest]] gs IH]; simpl; intros Hs Hin.
  - apply list_elem_of_singleton in Hin as ->. left. split; [done|]. apply not_elem_of_nil.
  - apply StronglySorted_inv in Hs as [Hs Hk].
    destruct (Z.ltb_spec (jr_iid r) k); [|destruct (Z.eqb_spec (jr_iid r) k)].
    + apply elem_of_cons in Hin as [->|Hin].
      * left. split; [done|]. simpl. intros [E|Hi]%elem_of_cons; [lia|].
        eapply Forall_forall in Hk; [|exact Hi]. lia.
      * right; right. split; [|done].
        apply elem_of_cons in Hin as [->|Hin]; simpl; [lia|].
        assert (g'.1 ∈ fst <$> gs) as Hi by (apply list_elem_of_fmap; eauto).
        eapply Forall_forall in Hk; [|exact Hi]. lia.
    + subst k. apply elem_of_cons in Hin as [->|Hin].
      * right; left. exists r0, rest. split; [left|done].
      * right; right. split; [|by right].
        assert (g'.1 ∈ fst <$> gs) as Hi by (apply list_elem_of_fmap; eauto).
        eapply Forall_forall in Hk; [|exact Hi]. lia.
    + apply elem_of_cons in Hin as [->|Hin].
      * right; right. simpl. split; [lia|left].
      * destruct (IH Hs Hin) as [[-> Hn]|[(r1 & rest1 & Hin1 & ->)|[Hne Hin1]]].
        -- left. split; [done|]. simpl. intros [E|Hi]%elem_of_cons; [lia|done].
        -- right; left. exists r1, rest1. split; [by right|done].
        -- right; right. split; [done|by right].
Qed.

Lemma groups_of_insert rows gs r :
  groups_of rows gs → groups_of (rows ++ [r]) (group_insert r gs).
Proof.
  intros (Hs & Hk & Hg). split; [by apply group_insert_sorted|]. split.
  - intros r' [Hr'| ->%list_elem_of_singleton]%elem_of_app; apply group_insert_keys; auto.
  - intros g' Hin. rewrite filter_app.
    destruct (group_insert_elem r gs g' Hs Hin)
      as [[-> Hn]|[(r1 & rest1 & Hin1 & ->)|[Hne Hin1]]]; simpl.
    + rewrite filter_none by (intros x Hx E; apply Hn; rewrite <- E; auto).
      by rewrite filter_cons_True, filter_nil.
    + specialize (Hg _ Hin1). unfold group_rows in *. simpl in *.
      rewrite <- Hg. by rewrite filter_cons_True, filter_nil.
    + rewrite (Hg _ Hin1). rewrite filter_cons_False by congruence.
      by rewrite filter_nil, app_nil_r.
Qed.

Lemma group_by_image_groups rows : groups_of rows (group_by_image rows).
Proof.
  unfold group_by_image.
  induction rows as [|r rows IH] using rev_ind.
  - split; [constructor|]. split; intros ? H; by apply elem_of_nil in H.
  - rewrite foldl_snoc. by apply groups_of_insert.
Qed.

Lemma group_by_image_keys rows i :
  i ∈ keys (group_by_image rows) ↔ ∃ r, r ∈ rows ∧ jr_iid r = i.
Proof.
  destruct (group_by_image_groups rows) as (Hs & Hk & Hg). split.
  - intros (g & -> & Hin)%list_elem_of_fmap.
    assert (g.2.1 ∈ filter (λ r, jr_iid r = g.1) rows) as Hr.
    { rewrite <- (Hg _ Hin). left. }
    apply list_elem_of_filter in Hr as [? ?]. eauto.
  - intros (r & Hr & <-). auto.
Qed.

End GroupBy.

Section Mean.


Lemma Qn_0 : Qn 0 = 0%Qc.
Proof. apply Z2Qc_inj_0. Qed.

Lemma Qn_1 : Qn 1 = 1%Qc.
Proof. apply Z2Qc_inj_1. Qed.

Lemma Qn_add a b : Qn (a + b) = (Qn a + Qn b)%Qc.
Proof. unfold Qn. by rewrite Nat2Z.inj_add, Z2Qc_inj_add. Qed.

Lemma Qn_mul a b : Qn (a * b) = (Qn a * Qn b)%Qc.
Proof. unfold Qn. by rewrite Nat2Z.inj_mul, Z2Qc_inj_mul. Qed.

Lemma Qn_nonzero a : 0 < a → Qn a ≠ 0%Qc.
Proof.
  intros Ha E. unfold Qn in E. rewrite <- Z2Qc_inj_0 in E.
  apply Z2Qc_inj in E. lia.
Qed.

Lemma Qc_sum_app xs ys : Qc_sum (xs ++ ys) = (Qc_sum xs + Qc_sum ys)%Qc.
Proof.
  unfold Qc_sum. induction xs as [|x xs IH]; simpl; [ring|]. rewrite IH. ring.
Qed.

(** Repeating every value the same number of times leaves the mean as it is. *)
Lemma mean_scale a xs xs' :
  0 < a → Qc_sum xs' = (Qn a * Qc_sum xs)%Qc → length xs' = a * length xs →
  mean xs' = mean xs.
Proof.
  intros Ha Hs Hl. destruct xs as [|x xs].
  - destruct xs'; [done|]. simpl in Hl. lia.
  - destruct xs' as [|x' xs']; [simpl in Hl; lia|].
    unfold mean. f_equal. rewrite Hs, Hl.
    fold (Qn (a * length (x :: xs))). fold (Qn (length (x :: xs))).
    rewrite Qn_mul.
    assert (Qn a ≠ 0%Qc) by by apply Qn_nonzero.
    assert (Qn (length (x :: xs)) ≠ 0%Qc) by (apply Qn_nonzero; simpl; lia).
    field. done.
Qed.

End Mean.

Section Join.

Lemma filter_bind {A B} (P : B → Prop) `{!∀ x, Decision (P x)}
    (f : A → list B) (l : list A) :
  filter P (l ≫= f) = l ≫= (λ x, filter P (f x)).
Proof.
  induction l as [|x l IH]; [done|].
  by rewrite !bind_cons, filter_app, IH.
Qed.

Lemma filter_all {A} (P : A → Prop) `{!∀ x, Decision (P x)} (l : list A) :
  (∀ x, x ∈ l → P x) → filter P l = l.
Proof.
  induction l as [|x l IH]; intros Hl; [done|].
  rewrite filter_cons_True by (apply Hl; left).
  f_equal. apply IH. intros y Hy. apply Hl. by right.
Qed.

Lemma join_image_elem gens rats pths img r :
  r ∈ join_image gens rats pths img ↔
  ∃ g rt p, g ∈ gens ∧ gen_id g = img_gid img ∧
            rt ∈ rats ∧ rat_iid rt = img_id img ∧
            p ∈ pths ∧ path_iid p = img_id img ∧
            r = {| jr_iid := img_id img; jr_gid := gen_id g; jr_idx := img_idx img;
                   jr_path := path_path p; jr_rating := rat_rating rt |}.
Proof.
  unfold join_image. split.
  - intros (g & Hr & [? ?]%list_elem_of_filter)%list_elem_of_bind.
    apply list_elem_of_bind in Hr as (rt & Hr & [? ?]%list_elem_of_filter).
    apply list_elem_of_bind in Hr as (p & Hr & [? ?]%list_elem_of_filter).
    apply list_elem_of_singleton in Hr. naive_solver.
  - intros (g & rt & p & ? & ? & ? & ? & ? & ? & ->).
    apply list_elem_of_bind. exists g. split; [|by apply list_elem_of_filter].
    apply list_elem_of_bind. exists rt. split; [|by apply list_elem_of_filter].
    apply list_elem_of_bind. exists p. split; [|by apply list_elem_of_filter].
    by apply list_elem_of_singleton.
Qed.

Lemma join_image_iid gens rats pths img r :
  r ∈ join_image gens rats pths img → jr_iid r = img_id img.
Proof. intros (g & rt & p & ? & ? & ? & ? & ? & ? & ->)%join_image_elem. done. Qed.

(** The rows of the join that carry key [i] are the rows joined to the
    image rows whose id is [i]. *)
Lemma joined_rows_filter gens imgs rats pths i :
  filter (λ r, jr_iid r = i) (joined_rows gens imgs rats pths) =
  filter (λ img, img_id img = i) imgs ≫= join_image gens rats pths.
Proof.
  unfold joined_rows. rewrite filter_bind.
  induction imgs as [|img imgs IH]; [done|].
  rewrite bind_cons, IH. destruct (decide (img_id img = i)) as [E|E].
  - rewrite filter_cons_True, bind_cons by done. f_equal.
    apply filter_all. intros r Hr. apply join_image_iid in Hr. congruence.
  - rewrite filter_cons_False by done.
    rewrite filter_none; [done|].
    intros r Hr. apply join_image_iid in Hr. congruence.
Qed.


Lemma cell_sum_app a b : cell_sum (a ++ b) = (cell_sum a + cell_sum b)%Qc.
Proof. unfold cell_sum. by rewrite omap_app, Qc_sum_app. Qed.

Lemma cell_count_app a b : cell_count (a ++ b) = cell_count a + cell_count b.
Proof. unfold cell_count. by rewrite omap_app, length_app. Qed.

(** Blocks with equal sum and count, repeated. *)
Lemma cells_bind_const {A} (l : list A) (f : A → list JoinRow) s n :
  (∀ x, x ∈ l → cell_sum (f x) = s ∧ cell_count (f x) = n) →
  cell_sum (l ≫= f) = (Qn (length l) * s)%Qc ∧
  cell_count (l ≫= f) = length l * n.
Proof.
  induction l as [|x l IH]; intros Hl.
  - split; [|done]. change (length (@nil A)) with 0. rewrite Qn_0.
    unfold cell_sum. simpl. ring.
  - destruct (Hl x) as [Hs Hn]; [left|].
    destruct IH as [IHs IHn]; [intros y Hy; apply Hl; by right|].
    rewrite bind_cons, cell_sum_app, cell_count_app, Hs, Hn, IHs, IHn.
    split; [|simpl; lia].
    change (length (x :: l)) with (1 + length l). rewrite Qn_add, Qn_1. ring.
Qed.

Lemma cells_rating_level (mk : RatingRow → PathRow → JoinRow)
    (rats : list RatingRow) (pths : list PathRow) :
  (∀ rt p, jr_rating (mk rt p) = rat_rating rt) →
  cell_sum (rt ← rats; p ← pths; [mk rt p]) =
    (Qn (length pths) * Qc_sum (omap rat_rating rats))%Qc ∧
  cell_count (rt ← rats; p ← pths; [mk rt p]) =
    length pths * length (omap rat_rating rats).
Proof.
  intros Hmk. induction rats as [|rt rats [IHs IHn]].
  - unfold cell_sum, cell_count. simpl. split; [ring|lia].
  - rewrite bind_cons, cell_sum_app, cell_count_app, IHs, IHn.
    destruct (cells_bind_const pths (λ p, [mk rt p])
                (from_option id 0%Qc (rat_rating rt))
                (length (option_list (rat_rating rt)))) as [Hs Hn].
    { intros p _. unfold cell_sum, cell_count. simpl. rewrite Hmk.
      destruct (rat_rating rt); simpl; split; try done; unfold Qc_sum; simpl; ring. }
    rewrite Hs, Hn. simpl. destruct (rat_rating rt) as [v|]; simpl;
      change (list_omap _ _ rat_rating rats) with (omap rat_rating rats);
      (split; [ring|lia]).
Qed.

End Join.

Section Query.

Lemma omap_id_fmap {A B} (f : A → option B) (l : list A) :
  omap id (f <$> l) = omap f l.
Proof.
  induction l as [|x l IH]; [done|].
  change (omap id (f x :: (f <$> l)) = omap f (x :: l)).
  change (omap f (x :: l)) with
    (match f x with Some y => y :: omap f l | None => omap f l end).
  rewrite <- IH. by destruct (f x).
Qed.

Lemma join_image_cells gens rats pths img :
  ∃ a, cell_sum (join_image gens rats pths img) =
         (Qn a * Qc_sum (rating_values rats (img_id img)))%Qc ∧
       cell_count (join_image gens rats pths img) =
         a * length (rating_values rats (img_id img)) ∧
       (a = 0 → join_image gens rats pths img = []).
Proof.
  set (gs := filter (λ g, gen_id g = img_gid img) gens).
  set (ps := filter (λ p, path_iid p = img_id img) pths).
  exists (length gs * length ps).
  destruct (cells_bind_const gs
    (λ g, rt ← filter (λ r, rat_iid r = img_id img) rats;
          p ← ps;
          [ {| jr_iid := img_id img; jr_gid := gen_id g; jr_idx := img_idx img;
               jr_path := path_path p; jr_rating := rat_rating rt |} ])
    (Qn (length ps) * Qc_sum (rating_values rats (img_id img)))%Qc
    (length ps * length (rating_values rats (img_id img)))) as [Hs Hn].
  { intros g _. by apply (cells_rating_level (λ rt p, Build_JoinRow _ _ _ _ _)). }
  unfold join_image. fold gs ps. rewrite Hs, Hn, Qn_mul.
  split; [ring|]. split; [lia|].
  intros Ha. apply elem_of_nil_inv. intros r Hr.
  apply (join_image_elem gens rats pths img) in Hr
    as (g & rt & p & Hg & Eg & _ & _ & Hp & Ep & _).
  assert (g ∈ gs) as Hg' by (by apply list_elem_of_filter).
  assert (p ∈ ps) as Hp' by (by apply list_elem_of_filter).
  destruct gs; [by apply elem_of_nil in Hg'|].
  destruct ps; [by apply elem_of_nil in Hp'|]. simpl in Ha. lia.
Qed.

Lemma key_cells gens imgs rats pths i :
  let rows := filter (λ r, jr_iid r = i) (joined_rows gens imgs rats pths) in
  ∃ a, cell_sum rows = (Qn a * Qc_sum (rating_values rats i))%Qc ∧
       cell_count rows = a * length (rating_values rats i) ∧
       (a = 0 → rows = []).
Proof.
  simpl. rewrite joined_rows_filter.
  induction imgs as [|img imgs (a & Hs & Hn & H0)].
  - exists 0. rewrite Qn_0. unfold cell_sum, cell_count. simpl.
    split; [ring|]. split; [lia|done].
  - destruct (decide (img_id img = i)) as [E|E].
    + rewrite filter_cons_True, bind_cons by done.
      destruct (join_image_cells gens rats pths img) as (b & Hs' & Hn' & H0').
      rewrite E in Hs', Hn'.
      exists (b + a). rewrite cell_sum_app, cell_count_app, Hs, Hn, Hs', Hn', Qn_add.
      split; [ring|]. split; [lia|].
      intros Hba. rewrite H0, H0' by lia. done.
    + rewrite filter_cons_False by done. eauto.
Qed.

(** The average over a group is the mean of the image's own rating
    values, however many rows the join made of each. *)
Lemma group_rating gens imgs rats pths g :
  g ∈ group_by_image (joined_rows gens imgs rats pths) →
  rating (select_record g) = mean (rating_values rats g.1).
Proof.
  intros Hg. destruct (group_by_image_groups (joined_rows gens imgs rats pths))
    as (_ & _ & Hrows).
  unfold select_record. cbn [rating]. unfold AVG.
  rewrite omap_id_fmap, (Hrows _ Hg).
  destruct (key_cells gens imgs rats pths g.1) as (a & Hs & Hn & H0).
  apply (mean_scale a); [|done..].
  destruct a; [|lia]. specialize (H0 eq_refl).
  rewrite <- (Hrows _ Hg) in H0. discriminate.
Qed.


Lemma joined_rows_key gens imgs rats pths i :
  (∃ r, r ∈ joined_rows gens imgs rats pths ∧ jr_iid r = i) ↔
  image_joined gens imgs rats pths i.
Proof.
  unfold joined_rows, image_joined. split.
  - intros (r & (img & Hr & Himg)%list_elem_of_bind & <-).
    apply join_image_elem in Hr as (g & rt & p & ? & ? & ? & ? & ? & ? & ->).
    exists img. simpl. naive_solver.
  - intros (img & Himg & <- & (g & ? & ?) & (rt & ? & ?) & (p & ? & ?)).
    exists {| jr_iid := img_id img; jr_gid := gen_id g; jr_idx := img_idx img;
              jr_path := path_path p; jr_rating := rat_rating rt |}.
    split; [|done].
    apply list_elem_of_bind. exists img. split; [|done].
    apply join_image_elem. exists g, rt, p. done.
Qed.

Lemma keys_NoDup gs : keys_sorted gs → NoDup (keys gs).
Proof.
  unfold keys_sorted. generalize (keys gs). intros l.
  induction 1 as [|k l Hs IH Hk]; constructor; [|done].
  intros Hin. eapply Forall_forall in Hk; [|exact Hin]. lia.
Qed.

End Query.

(** ** The batch sampler *)

Section Sampler.

Lemma batch_sampler_from_concat bs batch sampler :
  concat (batch_sampler_from bs batch sampler) = batch ++ sampler.
Proof.
  revert batch. induction sampler as [|i rest IH]; intros batch; simpl.
  - destruct batch; simpl; by rewrite ?app_nil_r.
  - destruct (length (batch ++ [i]) =? bs)%nat; simpl; rewrite IH;
      by rewrite <- app_assoc.
Qed.

Lemma batch_sampler_from_sizes bs batch sampler :
  0 < bs → length batch < bs →
  Forall (λ b, 0 < length b ≤ bs) (batch_sampler_from bs batch sampler).
Proof.
  intros Hbs. revert batch.
  induction sampler as [|i rest IH]; intros batch Hlen; simpl.
  - destruct batch; simpl in *; [constructor|].
    constructor; [simpl; lia|constructor].
  - destruct (Nat.eqb_spec (length (batch ++ [i])) bs) as [E|E].
    + constructor; [simpl; lia|]. apply IH. simpl. lia.
    + apply IH. rewrite length_app in *. simpl in *. lia.
Qed.


Lemma batch_sampler_nil bs sampler :
  0 < bs → (batch_sampler bs sampler = [] ↔ sampler = []).
Proof.
  intros Hbs. split.
  - intros E. pose proof (batch_sampler_from_concat bs [] sampler) as Hc.
    unfold batch_sampler in E. by rewrite E in Hc.
  - by intros ->.
Qed.

End Sampler.

(** ** The pipeline *)

Section PipelineFacts.

Context {Image Pixels Emb : Type}.
Variable convert_RGB : Image → Image.

#[local] Abbreviation World := (@World Image Emb).
#[local] Abbreviation SimulacraDataset := (@SimulacraDataset Image Pixels).
#[local] Abbreviation DataLoader := (@DataLoader Image Pixels).
#[local] Abbreviation ClipModel := (@ClipModel Image Pixels Emb).
#[local] Abbreviation ClipModule := (@ClipModule Image Pixels Emb).
#[local] Abbreviation PyObject := (@PyObject Image Pixels Emb).
#[local] Abbreviation Bundle := (@Bundle Emb).

Implicit Types (w : World) (self : SimulacraDataset) (loader : DataLoader).
Implicit Types (transform : Image → Pixels) (images_dir db : string).

(** *** The reader *)

Lemma SimulacraDataset_init_unfold images_dir db (tf : option (Image → Pixels)) w :
  SimulacraDataset_init images_dir db tf w =
  match files w !! db with
  | Some (DbFile d) =>
      (match execute_query d with
       | inl e => inl e
       | inr rows => inr {| self_images_dir := images_dir; self_transform := tf;
                            self_conn := db; self_ratings := rows |}
       end, w)
  | Some _ => (inl NotADatabase, w)
  | None =>
      if writable w db
      then (inl SchemaError, write_file db (DbFile empty_database) w)
      else (inl StoreUnavailable, w)
  end.
Proof.
  unfold SimulacraDataset_init, sqlite3_connect, conn_execute, M_bind, read, lift.
  destruct (files w !! db) as [file|] eqn:E.
  - unfold Ok. rewrite E. destruct file; try done. by destruct (execute_query d).
  - destruct (writable w db); [|done].
    unfold Ok, write_file at 1. cbn [files]. by rewrite lookup_insert_eq.
Qed.

(** *** Samples *)

Lemma getitem_ok self w key s :
  SimulacraDataset_getitem convert_RGB self w key = Ok s →
  ∃ r img q,
    self_ratings self !! key = Some r ∧
    files w !! path_join (self_images_dir self) (filename r) = Some (ImageFile img) ∧
    rating r = Some q ∧
    s = (match self_transform self with
         | Some transform => Tensor (transform (convert_RGB img))
         | None => PILImage (convert_RGB img)
         end, q).
Proof.
  unfold SimulacraDataset_getitem, Image_open, torch_tensor, rbind, Ok.
  destruct (self_ratings self !! key) as [r|]; [|done].
  destruct (files w !! _) as [[| img | |]|] eqn:Ef; try done.
  destruct (rating r) as [q|] eqn:Eq; [|done].
  intros [= <-]. by exists r, img, q.
Qed.


(** With a transform in place, stacking cannot fail, and a batch is
    loaded index by index. *)
Lemma next_batch_cons loader w transform i batch :
  self_transform (dl_dataset loader) = Some transform →
  next_batch convert_RGB loader w (i :: batch) =
  try s := SimulacraDataset_getitem convert_RGB (dl_dataset loader) w i in
  try (ps, rs) := next_batch convert_RGB loader w batch in
  match s.1 with
  | Tensor p => Ok (p :: ps, s.2 :: rs)
  | PILImage _ => Err CollateTypeError
  end.
Proof.
  intros Htf. unfold next_batch. simpl. unfold rbind.
  destruct (SimulacraDataset_getitem _ _ _ i) as [|s] eqn:Es; [done|].
  apply getitem_ok in Es as (r & img & q & _ & _ & _ & ->). rewrite Htf.
  destruct (fetch _ _ _ batch) as [|ss]; [done|]. simpl.
  by destruct (default_collate ss) as [|[ps rs]].
Qed.

Lemma next_batch_nil loader w : next_batch convert_RGB loader w [] = Ok ([], []).
Proof. done. Qed.

Lemma next_batch_app loader w transform b1 b2 :
  self_transform (dl_dataset loader) = Some transform →
  next_batch convert_RGB loader w (b1 ++ b2) =
  try (ps1, rs1) := next_batch convert_RGB loader w b1 in
  try (ps2, rs2) := next_batch convert_RGB loader w b2 in
  Ok (ps1 ++ ps2, rs1 ++ rs2).
Proof.
  intros Htf. induction b1 as [|i b1 IH].
  - rewrite next_batch_nil. simpl.
    by destruct (next_batch _ _ _ b2) as [|[ps rs]].
  - rewrite <- app_comm_cons, !(next_batch_cons _ _ transform) by done.
    rewrite IH. unfold rbind.
    destruct (SimulacraDataset_getitem _ _ _ i) as [|s] eqn:Es; [done|].
    apply getitem_ok in Es as (r & img & q & _ & _ & _ & ->). rewrite Htf. simpl.
    destruct (next_batch _ _ _ b1) as [|[ps1 rs1]]; [done|].
    by destruct (next_batch _ _ _ b2) as [|[ps2 rs2]].
Qed.

(** What a fully loaded batch holds, position by position. *)
Lemma next_batch_ok loader w transform batch ps rs :
  self_transform (dl_dataset loader) = Some transform →
  next_batch convert_RGB loader w batch = Ok (ps, rs) →
  length ps = length batch ∧ length rs = length batch ∧
  ∀ j i, batch !! j = Some i →
    ∃ r img q,
      self_ratings (dl_dataset loader) !! i = Some r ∧
      files w !! path_join (self_images_dir (dl_dataset loader)) (filename r)
        = Some (ImageFile img) ∧
      rating r = Some q ∧
      ps !! j = Some (transform (convert_RGB img)) ∧ rs !! j = Some q.
Proof.
  intros Htf. revert ps rs. induction batch as [|i batch IH]; intros ps rs.
  - rewrite next_batch_nil. intros [= <- <-]. by repeat split.
  - rewrite (next_batch_cons _ _ transform) by done. unfold rbind.
    destruct (SimulacraDataset_getitem _ _ _ i) as [|s] eqn:Es; [done|].
    apply getitem_ok in Es as (r & img & q & Hr & Hf & Hq & ->). rewrite Htf.
    destruct (next_batch _ _ _ batch) as [|[ps' rs']]; [done|]. simpl.
    intros [= <- <-]. destruct (IH ps' rs' eq_refl) as (Hlp & Hlr & Hrows).
    simpl. repeat split; [lia..|].
    intros [|j] i'; simpl.
    + intros [= <-]. by exists r, img, q.
    + apply Hrows.
Qed.


(** The loop of [main] against the one batch that holds every index:
    same failure, and on success the same rows once concatenated. *)
Lemma main_loop_spec (model : ClipModel) (f : Pixels → Emb) loader w transform
    (batches : list (list nat)) (embeds : list (list Emb)) (ratings : list (list Qc)) :
  self_transform (dl_dataset loader) = Some transform →
  (∀ b, encode_image model b = f <$> b) →
  match main_loop convert_RGB model loader w batches embeds ratings with
  | inl e => next_batch convert_RGB loader w (concat batches) = inl e
  | inr (embeds', ratings') =>
      ∃ ps rs, next_batch convert_RGB loader w (concat batches) = Ok (ps, rs) ∧
        concat embeds' = concat embeds ++ (f <$> ps) ∧
        concat ratings' = concat ratings ++ rs ∧
        length embeds' = length embeds + length batches ∧
        length ratings' = length ratings + length batches
  end.
Proof.
  intros Htf Hf. revert embeds ratings.
  induction batches as [|b batches IH]; intros embeds ratings; simpl.
  - exists [], []. rewrite !app_nil_r. repeat split; lia.
  - rewrite (next_batch_app _ _ transform) by done. unfold rbind at 1 3.
    destruct (next_batch _ _ _ b) as [e|[ps1 rs1]]; [done|].
    specialize (IH (embeds ++ [encode_image model ps1]) (ratings ++ [rs1])).
    destruct (main_loop _ _ _ _ batches _ _) as [e|[embeds' ratings']].
    + by rewrite IH.
    + destruct IH as (ps2 & rs2 & -> & He & Hr & Hle & Hlr).
      exists (ps1 ++ ps2), (rs1 ++ rs2). split; [done|].
      rewrite He, Hr, Hle, Hlr, !concat_app, !length_app, Hf, fmap_app. simpl.
      rewrite !app_nil_r, <- !app_assoc. repeat split; lia.
Qed.

Lemma main_unfold (globals : gmap string PyObject) env args w :
  main convert_RGB globals env args w =
  match set_start_method env (start_method args) with
  | inl e => (inl e, w)
  | inr _ =>
  match load_global_clip globals with
  | inl e => (inl e, w)
  | inr clip =>
  match clip_load clip (clip_model args) (resolve_device env args) with
  | inl e => (inl e, w)
  | inr model =>
  match SimulacraDataset_init (images_dir args) (db args) (Some (clip_tf model)) w with
  | (inl e, w1) => (inl e, w1)
  | (inr dataset, w1) =>
  match DataLoader_new dataset (batch_size args) (num_workers args) with
  | inl e => (inl e, w1)
  | inr loader =>
  match start_workers (start_method args) (dl_num_workers loader) with
  | inl e => (inl e, w1)
  | inr _ =>
  match main_loop convert_RGB model loader w1 (DataLoader_batches loader) [] [] with
  | inl e => (inl e, w1)
  | inr (embeds, ratings) =>
  match torch_cat embeds with
  | inl e => (inl e, w1)
  | inr embeds =>
  match torch_cat ratings with
  | inl e => (inl e, w1)
  | inr ratings =>
      torch_save {| obj_clip_model := clip_model args; obj_embeds := embeds;
                    obj_ratings := ratings |} (output args) w1
  end end end end end end end end end.
Proof.
  unfold main, M_bind, lift, read, rbind.
  destruct (set_start_method _ _); [done|].
  destruct (load_global_clip _); [done|].
  destruct (clip_load _ _ _); [done|].
  destruct (SimulacraDataset_init _ _ _ _) as [[|dataset] w1]; [done|].
  destruct (DataLoader_new _ _ _) as [|loader]; [done|].
  destruct (start_workers _ _); [done|].
  destruct (main_loop _ _ _ _ _ _ _) as [|[embeds ratings]]; [done|].
  destruct (torch_cat embeds); [done|].
  by destruct (torch_cat ratings).
Qed.


Lemma torch_cat_ok {A} (tensors : list (list A)) t :
  torch_cat tensors = Ok t → t = concat tensors ∧ tensors ≠ [].
Proof. destruct tensors; [done|]. by intros [= <-]. Qed.

(** [torch.cat] sees the rows and whether there is any batch, not how
    the rows were split. *)
Lemma torch_cat_partition {A} (ts1 ts2 : list (list A)) :
  concat ts1 = concat ts2 → (ts1 = [] ↔ ts2 = []) → torch_cat ts1 = torch_cat ts2.
Proof.
  intros Hc Hn. destruct ts1 as [|t1 ts1], ts2 as [|t2 ts2]; try done.
  - by destruct (proj1 Hn eq_refl).
  - by destruct (proj2 Hn eq_refl).
  - unfold torch_cat. by rewrite Hc.
Qed.

Lemma resolve_device_set_batch_size env bs args :
  resolve_device env (set_batch_size bs args) = resolve_device env args.
Proof. reflexivity. Qed.

(** *** The loader *)

Lemma DataLoader_new_ok self (bs nw : Z) loader :
  DataLoader_new self bs nw = Ok loader →
  (0 < bs)%Z ∧ (0 ≤ nw)%Z ∧
  loader = {| dl_dataset := self; dl_batch_size := Z.to_nat bs;
              dl_num_workers := Z.to_nat nw |}.
Proof.
  unfold DataLoader_new.
  destruct (Z.ltb_spec nw 0); [done|]. destruct (Z.leb_spec bs 0); [done|].
  intros [= <-]. repeat split; lia.
Qed.

Lemma DataLoader_new_positive self (bs nw : Z) :
  (0 < bs)%Z → (0 ≤ nw)%Z →
  DataLoader_new self bs nw =
    Ok {| dl_dataset := self; dl_batch_size := Z.to_nat bs;
          dl_num_workers := Z.to_nat nw |}.
Proof.
  intros Hbs Hnw. unfold DataLoader_new.
  destruct (Z.ltb_spec nw 0); [lia|]. destruct (Z.leb_spec bs 0); [lia|]. done.
Qed.

Lemma DataLoader_batches_concat loader :
  concat (DataLoader_batches loader)
    = seq 0 (SimulacraDataset_len (dl_dataset loader)).
Proof. apply batch_sampler_from_concat. Qed.

Lemma DataLoader_batches_nil loader :
  0 < dl_batch_size loader →
  (DataLoader_batches loader = [] ↔ self_ratings (dl_dataset loader) = []).
Proof.
  intros Hbs. unfold DataLoader_batches. rewrite batch_sampler_nil by done.
  unfold sequential_sampler, SimulacraDataset_len.
  destruct (self_ratings (dl_dataset loader)); simpl; split; congruence.
Qed.

(** Each pass through the loop body appends the encoder's output on one
    whole batch and that batch's ratings. *)
Lemma main_loop_per_batch (model : ClipModel) loader w
    (batches : list (list nat)) (embeds embeds' : list (list Emb))
    (ratings ratings' : list (list Qc)) :
  main_loop convert_RGB model loader w batches embeds ratings = Ok (embeds', ratings') →
  ∃ es qss, embeds' = embeds ++ es ∧ ratings' = ratings ++ qss ∧
    Forall2 (λ b e, ∃ ps qs, next_batch convert_RGB loader w b = Ok (ps, qs) ∧
                             e = encode_image model ps) batches es ∧
    Forall2 (λ b qs, ∃ ps, next_batch convert_RGB loader w b = Ok (ps, qs)) batches qss.
Proof.
  revert embeds ratings. induction batches as [|b batches IH]; intros embeds ratings; simpl.
  - intros [= <- <-]. exists [], []. rewrite !app_nil_r. repeat split; constructor.
  - unfold rbind. destruct (next_batch _ _ _ b) as [|[ps qs]] eqn:Hb; [done|].
    intros (es & qss & -> & -> & Hes & Hqss)%IH.
    exists (encode_image model ps :: es), (qs :: qss).
    rewrite <- !app_assoc. repeat split; try done; constructor; eauto.
Qed.

(** What a completed run has gone through. *)
Lemma main_Ok_inv globals env args w w' :
  main convert_RGB globals env args w = (Ok (), w') →
  set_start_method env (start_method args) = Ok () ∧
  ∃ (clip : ClipModule) (model : ClipModel) d rs,
    load_global_clip globals = Ok clip ∧
    clip_load clip (clip_model args) (resolve_device env args) = Ok model ∧
    files w !! db args = Some (DbFile d) ∧
    execute_query d = Ok rs ∧ rs ≠ [] ∧
    (0 < batch_size args)%Z ∧ (0 ≤ num_workers args)%Z ∧
    start_workers (start_method args) (Z.to_nat (num_workers args)) = Ok () ∧
    writable w (output args) = true ∧
    ∀ r, r ∈ rs → ∃ img q,
      files w !! path_join (images_dir args) (filename r) = Some (ImageFile img) ∧
      rating r = Some q.
Proof.
  intros Hmain. rewrite main_unfold in Hmain. unfold Ok, Err in *.
  destruct (set_start_method _ _) as [|[]]; [done|]. split; [done|].
  destruct (load_global_clip _) as [|clip] eqn:Hclip; [done|].
  destruct (clip_load _ _ _) as [|model] eqn:Hload; [done|].
  rewrite SimulacraDataset_init_unfold in Hmain.
  destruct (files w !! db args) as [[d| | |]|] eqn:Hdb; try done;
    [|by destruct (writable w (db args))].
  destruct (execute_query d) as [|rs] eqn:Hq; [done|].
  destruct (DataLoader_new _ _ _) as [|loader] eqn:Hl; [done|].
  apply DataLoader_new_ok in Hl as (Hbs & Hnw & ->).
  cbn [dl_num_workers] in Hmain.
  destruct (start_workers _ _) as [|[]] eqn:Hsw; [done|].
  destruct (main_loop _ _ _ _ _ _ _) as [|[embeds ratings]] eqn:Hloop; [done|].
  destruct (torch_cat embeds) as [|embeds'] eqn:Hce; [done|].
  destruct (torch_cat ratings) as [|ratings']; [done|].
  unfold torch_save in Hmain. destruct (writable w (output args)) eqn:Hout; [|done].
  exists clip, model, d, rs. do 4 (split; [done|]).
  apply main_loop_per_batch in Hloop as (es & qss & -> & _ & Hes & _).
  simpl in Hce. apply torch_cat_ok in Hce as [_ Hne].
  match type of Hes with Forall2 _ (DataLoader_batches ?l) _ => set (loader := l) in * end.
  assert (rs ≠ []) as Hrs.
  { intros ->. apply Hne. by apply Forall2_nil_inv_l in Hes. }
  do 5 (split; [done|]).
  intros r (i & Hi)%list_elem_of_lookup_1.
  assert (i ∈ concat (DataLoader_batches loader)) as Hin.
  { rewrite DataLoader_batches_concat. apply elem_of_seq.
    apply lookup_lt_Some in Hi. unfold SimulacraDataset_len. simpl. lia. }
  apply list_elem_of_In, in_concat in Hin as (b & Hb & Hib).
  apply list_elem_of_In in Hb. apply list_elem_of_In in Hib.
  apply list_elem_of_lookup_1 in Hb as (kb & Hkb).
  destruct (Forall2_lookup_l _ _ _ _ _ Hes Hkb) as (e & _ & ps & qs & Hnb & _).
  apply (next_batch_ok loader w (clip_tf model)) in Hnb as (_ & _ & Hrows);
    [|done].
  apply list_elem_of_lookup_1 in Hib as (j & Hj).
  destruct (Hrows j i Hj) as (r' & img & q & Hr' & Hfile & Hrat & _).
  simpl in Hr', Hfile. assert (r' = r) as -> by congruence. eauto.
Qed.


End PipelineFacts.

(** * The claims about the Rating Store Reader *)

Lemma query_groups_ok d gens imgs rats pths :
  tbl_generations d = Some gens → tbl_images d = Some imgs →
  tbl_ratings d = Some rats → tbl_paths d = Some pths →
  query_groups d = Ok (group_by_image (joined_rows gens imgs rats pths)).
Proof. unfold query_groups. by intros -> -> -> ->. Qed.

Lemma query_groups_inv d gs :
  query_groups d = Ok gs →
  ∃ gens imgs rats pths,
    tbl_generations d = Some gens ∧ tbl_images d = Some imgs ∧
    tbl_ratings d = Some rats ∧ tbl_paths d = Some pths ∧
    gs = group_by_image (joined_rows gens imgs rats pths).
Proof.
  unfold query_groups.
  destruct (tbl_images d) as [imgs|], (tbl_generations d) as [gens|],
    (tbl_ratings d) as [rats|], (tbl_paths d) as [pths|]; try done.
  intros [= <-]. by exists gens, imgs, rats, pths.
Qed.

(** C2, as the code has it.  On a store that has the four relations the
    reader returns one record for each distinct image identifier that the
    joins keep: an image with a generation row, a rating row and a path
    row.  The record's rating is the arithmetic mean of the image's
    rating values (None when it has none).  When every image row is kept
    by the joins, the number of records is the number of distinct image
    identifiers. *)
Theorem C2_one_record_per_joined_image d gens imgs rats pths :
  tbl_generations d = Some gens → tbl_images d = Some imgs →
  tbl_ratings d = Some rats → tbl_paths d = Some pths →
  ∃ rs, execute_query d = Ok rs ∧
    length rs = length (record_keys d) ∧
    NoDup (record_keys d) ∧
    (∀ i, i ∈ record_keys d ↔ image_joined gens imgs rats pths i) ∧
    (∀ k i r, record_keys d !! k = Some i → rs !! k = Some r →
       rating r = mean (rating_values rats i)) ∧
    ((∀ img, img ∈ imgs → image_joined gens imgs rats pths (img_id img)) →
       length rs = length (remove_dups (img_id <$> imgs))).
Proof.
  intros Hg Hi Hr Hp.
  pose proof (query_groups_ok d gens imgs rats pths Hg Hi Hr Hp) as Hq.
  set (gs := group_by_image (joined_rows gens imgs rats pths)) in *.
  exists (select_record <$> gs).
  assert (record_keys d = keys gs) as Hkeys by (unfold record_keys; by rewrite Hq).
  assert (∀ i, i ∈ keys gs ↔ image_joined gens imgs rats pths i) as Hmem.
  { intros i. unfold gs. by rewrite group_by_image_keys, joined_rows_key. }
  assert (NoDup (keys gs)) as Hnd.
  { apply keys_NoDup. apply group_by_image_groups. }
  assert (length (select_record <$> gs) = length (keys gs)) as Hlen
    by (unfold keys; by rewrite !length_fmap).
  rewrite Hkeys. unfold execute_query. rewrite Hq. simpl.
  split; [done|]. split; [done|].
  split; [done|]. split; [done|]. split.
  - intros k i r Hk Hrk. unfold keys in Hk.
    apply list_lookup_fmap_Some in Hk as (g & -> & Hgk).
    apply list_lookup_fmap_Some in Hrk as (g' & -> & Hgk').
    unfold Group in *. assert (g' = g) as -> by congruence.
    apply (group_rating gens imgs rats pths). by eapply list_elem_of_lookup_2.
  - intros Hall. rewrite Hlen.
    apply Permutation_length, NoDup_Permutation; [done|apply NoDup_remove_dups|].
    intros i. rewrite elem_of_remove_dups, Hmem, list_elem_of_fmap. split.
    + intros (img & ? & <- & _). eauto.
    + intros (img & -> & Himg). auto.
Qed.

(** C10, as the code has it.  Every returned record stands for an image
    identifier that has an image row, a rating row and a path row;
    identifiers without a rating row or without a path row have no
    record.  The record's rating is a number exactly when one of the
    image's rating rows holds a value; when all of them hold NULL it is
    None. *)
Theorem C10_records_have_rating_and_path_rows d rs :
  execute_query d = Ok rs →
  ∃ gens imgs rats pths,
    tbl_generations d = Some gens ∧ tbl_images d = Some imgs ∧
    tbl_ratings d = Some rats ∧ tbl_paths d = Some pths ∧
    Forall2 (λ i r,
        (∃ img, img ∈ imgs ∧ img_id img = i) ∧
        (∃ rt, rt ∈ rats ∧ rat_iid rt = i) ∧
        (∃ p, p ∈ pths ∧ path_iid p = i) ∧
        (is_Some (rating r) ↔ ∃ rt v, rt ∈ rats ∧ rat_iid rt = i ∧ rat_rating rt = Some v))
      (record_keys d) rs ∧
    (∀ i, (¬ ∃ rt, rt ∈ rats ∧ rat_iid rt = i) ∨ (¬ ∃ p, p ∈ pths ∧ path_iid p = i) →
       i ∉ record_keys d).
Proof.
  unfold execute_query, rbind.
  destruct (query_groups d) as [|gs] eqn:Hq; [done|]. intros [= <-].
  destruct (query_groups_inv d gs Hq) as (gens & imgs & rats & pths & Hg & Hi & Hr & Hp & Hgs).
  exists gens, imgs, rats, pths. do 4 (split; [done|]).
  assert (record_keys d = keys gs) as -> by (unfold record_keys; by rewrite Hq).
  assert (∀ i, i ∈ keys gs → image_joined gens imgs rats pths i) as Hmem.
  { intros i. rewrite Hgs. by rewrite group_by_image_keys, joined_rows_key. }
  split.
  - unfold keys. apply Forall2_fmap, Forall_Forall2_diag, Forall_forall.
    intros g Hin.
    destruct (Hmem g.1) as (img & Himg & Eimg & _ & Hrt & Hpt).
    { apply list_elem_of_fmap. eauto. }
    split; [eauto|]. split; [done|]. split; [done|].
    rewrite Hgs in Hin. rewrite (group_rating gens imgs rats pths g Hin).
    unfold rating_values. split.
    + intros [v Hv]. destruct (omap _ _) as [|v0 vs] eqn:Ev; [done|].
      assert (v0 ∈ omap rat_rating (filter (λ r, rat_iid r = g.1) rats)) as Hv0
        by (rewrite Ev; left).
      apply list_elem_of_omap in Hv0 as (rt & [? ?]%list_elem_of_filter & ?).
      eauto.
    + intros (rt & v & Hin' & Eiid & Ev).
      assert (v ∈ omap rat_rating (filter (λ r, rat_iid r = g.1) rats)) as Hv.
      { apply list_elem_of_omap. exists rt. split; [|done]. by apply list_elem_of_filter. }
      destruct (omap _ _); [by apply elem_of_nil in Hv|]. by eexists.
  - intros i Hno Hin. destruct (Hmem i Hin) as (_ & _ & _ & _ & Hrt & Hpt). tauto.
Qed.

(** C2 as stated fails: a store with three distinct images of which one
    was never rated yields two records. *)
Lemma C2_counterexample :
  ∃ rs, execute_query Example.store_unrated = Ok rs ∧
        length (remove_dups (img_id <$> default [] (tbl_images Example.store_unrated))) = 3 ∧
        length rs = 2.
Proof. eexists. split; [reflexivity|]. split; reflexivity. Qed.

(** On the store of the spec's example the reader returns three records,
    and image 1, rated 2 and 4, has mean 3. *)
Lemma C2_witness :
  ∃ rs, execute_query Example.store = Ok rs ∧ length rs = 3 ∧
        ∀ r, rs !! 0 = Some r → rating r = mean [Qc_of_Z 2; Qc_of_Z 4].
Proof.
  destruct (C2_one_record_per_joined_image Example.store _ _ _ _
              eq_refl eq_refl eq_refl eq_refl)
    as (rs & Hq & Hlen & _ & _ & Hmean & _).
  exists rs. split; [exact Hq|]. split; [exact Hlen|].
  intros r Hr. exact (Hmean 0 1%Z r eq_refl Hr).
Defined.

(** C10 as stated fails: an image whose only rating row holds NULL has a
    rating row and a path row, is returned, and its mean rating is None. *)
Lemma C10_counterexample :
  ∃ r, execute_query Example.store_null = Ok [r] ∧ rating r = None.
Proof. eexists. split; reflexivity. Qed.

Lemma C10_witness :
  ∃ rs, execute_query Example.store = Ok rs ∧ 4%Z ∉ record_keys Example.store.
Proof.
  eexists. split; [reflexivity|].
  destruct (C10_records_have_rating_and_path_rows Example.store _ eq_refl)
    as (gens & imgs & rats & pths & _ & _ & Hr & _ & _ & Hout).
  injection Hr as <-. apply Hout. left.
  intros (rt & Hin & E). apply list_elem_of_In in Hin. simpl in Hin.
  intuition subst; discriminate.
Defined.

(** * The claims *)

Section Claims.

Context {Image Pixels Emb : Type}.
Variable convert_RGB : Image → Image.

#[local] Abbreviation World := (@World Image Emb).
#[local] Abbreviation SimulacraDataset := (@SimulacraDataset Image Pixels).
#[local] Abbreviation DataLoader := (@DataLoader Image Pixels).
#[local] Abbreviation ClipModel := (@ClipModel Image Pixels Emb).
#[local] Abbreviation ClipModule := (@ClipModule Image Pixels Emb).
#[local] Abbreviation PyObject := (@PyObject Image Pixels Emb).
#[local] Abbreviation Bundle := (@Bundle Emb).

Implicit Types (w : World) (self : SimulacraDataset) (loader : DataLoader).
Implicit Types (env : TorchEnv) (args : Args) (globals : gmap string PyObject).

(** Rewrite with the outcome of one line of [main] and move past it. *)
Ltac step H := rewrite H; unfold Ok, Err; cbv beta iota.

(** C3.  Run in the namespace the script itself builds, [main] stops at
    line 80 with a NameError for [clip] as soon as the start method has
    been set and the device resolved; the world is as it was, so no
    database was opened, no sample loaded and no file written. *)
Theorem C3_clip_is_undefined env args w :
  set_start_method env (start_method args) = Ok () →
  main convert_RGB (script_globals : gmap string PyObject) env args w
    = (Err (NameError "clip"), w).
Proof.
  intros Hsm. rewrite main_unfold, Hsm. reflexivity.
Qed.

(** C4.  When [--device] carries a name, line 71 rebuilds the device from
    the variable [device], which holds "cpu", not from [args.device]: the
    device used is the CPU whatever the flag names. *)
Theorem C4_device_flag_is_ignored env args name :
  device args = Some name → name ≠ "" →
  resolve_device env args = torch_device "cpu".
Proof.
  intros Hd Hne. unfold resolve_device. rewrite Hd.
  destruct name; [done|reflexivity].
Qed.

(** C9, as the code has it.  [sqlite3.connect] opens the location for
    reading and writing and creates it when it holds nothing.  The reader
    fails with StoreUnavailable when the location holds nothing and
    cannot be created; at a location that holds nothing and can be
    created it leaves an empty database and fails with SchemaError; on a
    database that lacks one of the four relations it fails with
    SchemaError.  [main] ends with the reader's error, in the world the
    reader left, without another attempt. *)
Theorem C9_reader_failures (dir location : string) (tf : option (Image → Pixels)) w :
  (files w !! location = None → writable w location = false →
     SimulacraDataset_init dir location tf w = (Err StoreUnavailable, w)) ∧
  (files w !! location = None → writable w location = true →
     SimulacraDataset_init dir location tf w
       = (Err SchemaError, write_file location (DbFile empty_database) w)) ∧
  (∀ d, files w !! location = Some (DbFile d) →
     tbl_images d = None ∨ tbl_generations d = None ∨
     tbl_ratings d = None ∨ tbl_paths d = None →
     SimulacraDataset_init dir location tf w = (Err SchemaError, w)) ∧
  (∀ globals env args (clip : ClipModule) (model : ClipModel) e w',
     set_start_method env (start_method args) = Ok () →
     load_global_clip globals = Ok clip →
     clip_load clip (clip_model args) (resolve_device env args) = Ok model →
     dir = images_dir args → location = db args →
     tf = Some (clip_tf model) →
     SimulacraDataset_init dir location tf w = (Err e, w') →
     main convert_RGB globals env args w = (Err e, w')).
Proof.
  repeat split.
  - rewrite SimulacraDataset_init_unfold. by intros -> ->.
  - rewrite SimulacraDataset_init_unfold. by intros -> ->.
  - rewrite SimulacraDataset_init_unfold. intros d -> Hd.
    assert (execute_query d = Err SchemaError) as E; [|by rewrite E].
    unfold execute_query, query_groups.
    destruct (tbl_images d), (tbl_generations d), (tbl_ratings d), (tbl_paths d);
      try done; destruct Hd as [?|[?|[?|?]]]; done.
  - intros globals env args clip model e w' Hsm Hclip Hload -> -> -> Hinit.
    rewrite main_unfold. step Hsm. step Hclip. step Hload. by step Hinit.
Qed.

(** C5, what the code does.  On a store whose query returns no row the
    loop body never runs, [embeds] is still the empty list at line 95,
    and [torch.cat] raises: the run ends there with that error and
    writes nothing. *)
Theorem C5_empty_store_cat_error globals env args w (clip : ClipModule)
    (model : ClipModel) d :
  set_start_method env (start_method args) = Ok () →
  load_global_clip globals = Ok clip →
  clip_load clip (clip_model args) (resolve_device env args) = Ok model →
  files w !! db args = Some (DbFile d) →
  execute_query d = Ok [] →
  (0 < batch_size args)%Z →
  num_workers args = 0%Z →
  main convert_RGB globals env args w = (Err CatEmptyError, w).
Proof.
  intros Hsm Hclip Hload Hdb Hq Hbs Hnw.
  rewrite main_unfold. step Hsm. step Hclip. step Hload.
  rewrite SimulacraDataset_init_unfold, Hdb. step Hq.
  rewrite DataLoader_new_positive by lia. unfold Ok. cbv beta iota.
  rewrite Hnw. cbn [dl_num_workers start_workers Z.to_nat Nat.ltb Nat.leb andb].
  unfold Ok. cbv beta iota.
  match goal with |- context [DataLoader_batches ?l] =>
    assert (DataLoader_batches l = []) as ->
      by (apply DataLoader_batches_nil; [simpl; lia|done]) end.
  reflexivity.
Qed.


(** C1.  In a run that completes, with an encoder that maps a batch row
    by row, the bundle written to [--output] has one embedding row and
    one rating entry per record the reader returned, and at every index
    both come from the record at that index: the embedding is that of
    the image read at the record's path, the rating is the record's. *)
Theorem C1_bundle_rows_follow_records globals env args w w'
    (clip : ClipModule) (model : ClipModel) (f : Pixels → Emb) :
  load_global_clip globals = Ok clip →
  clip_load clip (clip_model args) (resolve_device env args) = Ok model →
  (∀ b, encode_image model b = f <$> b) →
  main convert_RGB globals env args w = (Ok (), w') →
  ∃ d rs obj,
    files w !! db args = Some (DbFile d) ∧ execute_query d = Ok rs ∧
    w' = write_file (output args) (BundleFile obj) w ∧
    obj_clip_model obj = clip_model args ∧
    length (obj_embeds obj) = length rs ∧
    length (obj_ratings obj) = length rs ∧
    ∀ i r, rs !! i = Some r →
      ∃ img q,
        files w !! path_join (images_dir args) (filename r) = Some (ImageFile img) ∧
        rating r = Some q ∧
        obj_embeds obj !! i = Some (f (clip_tf model (convert_RGB img))) ∧
        obj_ratings obj !! i = Some q.
Proof.
  intros Hclip Hload Hf Hmain. rewrite main_unfold in Hmain. unfold Ok, Err in *.
  destruct (set_start_method _ _); [done|].
  rewrite Hclip, Hload, SimulacraDataset_init_unfold in Hmain.
  destruct (files w !! db args) as [[d| | |]|] eqn:Hdb; try done;
    [|by destruct (writable w (db args))].
  destruct (execute_query d) as [|rs] eqn:Hq; [done|].
  destruct (DataLoader_new _ _ _) as [|loader] eqn:Hl; [done|].
  apply DataLoader_new_ok in Hl as (Hbs & Hnw & ->).
  destruct (start_workers _ _); [done|].
  match type of Hmain with context [main_loop _ _ ?l _ _ _ _] =>
    pose proof (main_loop_spec convert_RGB model f l w (clip_tf model)
                  (DataLoader_batches l) [] [] eq_refl Hf) as Hloop;
    rewrite DataLoader_batches_concat in Hloop;
    destruct (main_loop convert_RGB model l w (DataLoader_batches l) [] [])
      as [|[embeds ratings]]; [done|]
  end.
  destruct Hloop as (ps & qs & Hnb & Hembeds & Hratings & _ & _).
  destruct (torch_cat embeds) as [|embeds'] eqn:Hce; [done|].
  destruct (torch_cat ratings) as [|ratings'] eqn:Hcr; [done|].
  apply torch_cat_ok in Hce as [-> _]. apply torch_cat_ok in Hcr as [-> _].
  unfold torch_save in Hmain. destruct (writable w (output args)); [|done].
  injection Hmain as <-.
  apply (next_batch_ok convert_RGB _ _ (clip_tf model)) in Hnb as (Hlp & Hlq & Hrows);
    [|done].
  simpl in Hembeds, Hratings, Hlp, Hlq, Hrows.
  rewrite length_seq in Hlp, Hlq. unfold SimulacraDataset_len in *. simpl in *.
  exists d, rs. eexists. split; [done|]. split; [done|]. split; [done|]. simpl.
  rewrite Hembeds, Hratings, length_fmap. do 3 (split; [done|]).
  intros i r Hr.
  destruct (Hrows i i) as (r' & img & q & Hr' & Hfile & Hq' & Hps & Hqs).
  { apply lookup_seq_lt. by eapply lookup_lt_Some. }
  assert (r' = r) as -> by congruence.
  exists img, q. rewrite list_lookup_fmap, Hps. done.
Qed.

(** C6.  With an encoder that maps a batch row by row, two runs that
    differ only in a positive [--batch-size] end the same way and leave
    the same world: the same bundle, hence the same embeddings tensor,
    when they complete. *)
Theorem C6_batch_size_invariance globals env args w (bs1 bs2 : Z) :
  (0 < bs1)%Z → (0 < bs2)%Z →
  (∀ (clip : ClipModule) (model : ClipModel),
     load_global_clip globals = Ok clip →
     clip_load clip (clip_model args) (resolve_device env args) = Ok model →
     ∃ f : Pixels → Emb, ∀ b, encode_image model b = f <$> b) →
  main convert_RGB globals env (set_batch_size bs1 args) w
    = main convert_RGB globals env (set_batch_size bs2 args) w ∧
  ∀ w1 w2 obj1 obj2,
    main convert_RGB globals env (set_batch_size bs1 args) w = (Ok (), w1) →
    main convert_RGB globals env (set_batch_size bs2 args) w = (Ok (), w2) →
    files w1 !! output args = Some (BundleFile obj1) →
    files w2 !! output args = Some (BundleFile obj2) →
    obj_embeds obj1 = obj_embeds obj2.
Proof.
  intros Hbs1 Hbs2 Hrow.
  assert (main convert_RGB globals env (set_batch_size bs1 args) w
          = main convert_RGB globals env (set_batch_size bs2 args) w) as Heq.
  { rewrite !main_unfold, !resolve_device_set_batch_size.
    cbn [set_batch_size start_method clip_model images_dir db batch_size
         num_workers output].
    destruct (set_start_method _ _); [done|].
    destruct (load_global_clip globals) as [|clip] eqn:Hclip; [done|].
    destruct (clip_load _ _ _) as [|model] eqn:Hload; [done|].
    destruct (Hrow clip model eq_refl Hload) as [f Hf].
    destruct (SimulacraDataset_init _ _ _ w) as [[|dataset] w1] eqn:Hinit; [done|].
    assert (self_transform dataset = Some (clip_tf model)) as Htf.
    { rewrite SimulacraDataset_init_unfold in Hinit.
      destruct (files w !! db args) as [[d| | |]|]; try done;
        [|by destruct (writable w (db args))].
      destruct (execute_query d); [done|]. by injection Hinit as <- <-. }
    destruct (Z.ltb_spec (num_workers args) 0) as [Hnw|Hnw].
    { unfold DataLoader_new. by destruct (Z.ltb_spec (num_workers args) 0); [|lia]. }
    rewrite !DataLoader_new_positive by lia. unfold Ok. cbv beta iota.
    cbn [dl_num_workers]. destruct (start_workers _ _); [done|].
    set (l1 := {| dl_dataset := dataset; dl_batch_size := Z.to_nat bs1;
                  dl_num_workers := Z.to_nat (num_workers args) |}).
    set (l2 := {| dl_dataset := dataset; dl_batch_size := Z.to_nat bs2;
                  dl_num_workers := Z.to_nat (num_workers args) |}).
    pose proof (main_loop_spec convert_RGB model f l1 w1 (clip_tf model)
                  (DataLoader_batches l1) [] [] Htf Hf) as H1.
    pose proof (main_loop_spec convert_RGB model f l2 w1 (clip_tf model)
                  (DataLoader_batches l2) [] [] Htf Hf) as H2.
    rewrite DataLoader_batches_concat in H1, H2.
    change (next_batch convert_RGB l2 w1) with (next_batch convert_RGB l1 w1) in H2.
    change (dl_dataset l2) with (dl_dataset l1) in H2.
    pose proof (DataLoader_batches_nil l1 ltac:(simpl; lia)) as Hn1.
    pose proof (DataLoader_batches_nil l2 ltac:(simpl; lia)) as Hn2.
    change (dl_dataset l2) with (dl_dataset l1) in Hn2.
    unfold Ok in H1, H2.
    destruct (main_loop _ _ l1 _ _ _ _) as [e1|[E1 R1]],
             (main_loop _ _ l2 _ _ _ _) as [e2|[E2 R2]].
    - congruence.
    - destruct H2 as (? & ? & ? & _). congruence.
    - destruct H1 as (? & ? & ? & _). congruence.
    - destruct H1 as (ps1 & qs1 & Hnb1 & HE1 & HR1 & HlE1 & HlR1).
      destruct H2 as (ps2 & qs2 & Hnb2 & HE2 & HR2 & HlE2 & HlR2).
      assert (ps2 = ps1 ∧ qs2 = qs1) as [-> ->] by (split; congruence).
      simpl in HlE1, HlR1, HlE2, HlR2.
      assert (∀ {A B} (x : list A) (y : list B), length x = length y →
                (x = [] ↔ y = [])) as Hnil.
      { intros A B [|] [|]; simpl; intros; split; congruence. }
      rewrite (torch_cat_partition E1 E2), (torch_cat_partition R1 R2);
        [done|congruence| |congruence|].
      + rewrite (Hnil _ _ R1 (DataLoader_batches l1)) by done.
        rewrite (Hnil _ _ R2 (DataLoader_batches l2)) by done. by rewrite Hn1, Hn2.
      + rewrite (Hnil _ _ E1 (DataLoader_batches l1)) by done.
        rewrite (Hnil _ _ E2 (DataLoader_batches l2)) by done. by rewrite Hn1, Hn2. }
  split; [exact Heq|].
  intros w1 w2 obj1 obj2 H1 H2 Hf1 Hf2. rewrite Heq, H2 in H1. congruence.
Qed.


End Claims.

Lemma C3_witness :
  set_start_method Example.env (start_method Example.args) = Ok () ∧
  main (λ img : Z, img) (@script_globals Z Z Z) Example.env Example.args Example.world
    = (Err (NameError "clip"), Example.world).
Proof.
  split; [reflexivity|].
  apply (C3_clip_is_undefined (λ img : Z, img)). reflexivity.
Defined.

Lemma C4_witness :
  device Example.args_cuda = Some "cuda" ∧
  resolve_device Example.env Example.args_cuda = "cpu" ∧
  resolve_device Example.env Example.args_cuda ≠ "cuda".
Proof.
  assert (resolve_device Example.env Example.args_cuda = torch_device "cpu") as E.
  { apply (C4_device_flag_is_ignored _ _ "cuda"); [reflexivity|discriminate]. }
  split; [reflexivity|]. split; [exact E|]. rewrite E. discriminate.
Defined.

(** C9 as stated fails: where nothing exists at the database location,
    the reader does not fail with StoreUnavailable, and its connection
    is not read-only: it has created a database there. *)
Lemma C9_counterexample :
  files Example.world_nodb !! "sac.db" = None ∧
  (SimulacraDataset_init "imgs" "sac.db" (@None (Z → Z)) Example.world_nodb).1
    = Err SchemaError ∧
  (SimulacraDataset_init "imgs" "sac.db" (@None (Z → Z)) Example.world_nodb).1
    ≠ Err StoreUnavailable ∧
  files (SimulacraDataset_init "imgs" "sac.db" (@None (Z → Z)) Example.world_nodb).2
    !! "sac.db" = Some (DbFile empty_database).
Proof.
  split; [reflexivity|]. split; [reflexivity|]. split; [discriminate|reflexivity].
Qed.

Lemma C9_witness :
  files Example.world_nodb !! "sac.db" = None ∧
  writable Example.world_nodb "sac.db" = true ∧
  SimulacraDataset_init "imgs" "sac.db" (@None (Z → Z)) Example.world_nodb
    = (Err SchemaError,
       write_file "sac.db" (DbFile empty_database) Example.world_nodb).
Proof.
  split; [reflexivity|]. split; [reflexivity|].
  apply (C9_reader_failures (λ img : Z, img)); reflexivity.
Defined.

Lemma C5_witness :
  files (Example.world_with Example.store_empty) !! db Example.args
    = Some (DbFile Example.store_empty) ∧
  execute_query Example.store_empty = Ok [] ∧
  main (λ img : Z, img) Example.globals Example.env Example.args
       (Example.world_with Example.store_empty)
    = (Err CatEmptyError, Example.world_with Example.store_empty).
Proof.
  split; [reflexivity|]. split; [reflexivity|].
  apply (C5_empty_store_cat_error (λ img : Z, img) Example.globals Example.env
           Example.args _ Example.clip Example.model Example.store_empty);
    reflexivity.
Defined.


Lemma C1_witness :
  ∃ w' obj,
    main (λ img : Z, img) Example.globals Example.env Example.args Example.world
      = (Ok (), w') ∧
    files w' !! "out.pt" = Some (BundleFile obj) ∧
    length (obj_embeds obj) = 3 ∧ length (obj_ratings obj) = 3 ∧
    obj_embeds obj !! 1 = Some 401%Z.
Proof.
  set (w' := (main (λ img : Z, img) Example.globals Example.env Example.args
                Example.world).2).
  assert (main (λ img : Z, img) Example.globals Example.env Example.args Example.world
          = (Ok (), w')) as Hmain by (vm_compute; reflexivity).
  destruct (C1_bundle_rows_follow_records (λ img : Z, img) Example.globals Example.env
              Example.args Example.world w' Example.clip Example.model
              (λ p, (p + 1)%Z) eq_refl eq_refl (λ b, eq_refl) Hmain)
    as (d & rs & obj & Hdb & Hq & Hw' & _ & Hle & Hlr & Hrows).
  exists w', obj. split; [exact Hmain|].
  injection Hdb as <-. injection Hq as <-.
  split; [rewrite Hw'; apply lookup_insert_eq|].
  split; [exact Hle|]. split; [exact Hlr|].
  destruct (Hrows 1 _ eq_refl) as (img & q & Hfile & _ & He & _).
  injection Hfile as <-. exact He.
Defined.

Lemma C6_witness :
  length (record_keys Example.store11) = 11 ∧
  batch_sampler 4 (sequential_sampler 11) = [[0; 1; 2; 3]; [4; 5; 6; 7]; [8; 9; 10]] ∧
  batch_sampler 10 (sequential_sampler 11) = [[0; 1; 2; 3; 4; 5; 6; 7; 8; 9]; [10]] ∧
  ∃ w' obj,
    main (λ img : Z, img) Example.globals Example.env
         (set_batch_size 4 Example.args) Example.world11 = (Ok (), w') ∧
    main (λ img : Z, img) Example.globals Example.env
         (set_batch_size 10 Example.args) Example.world11 = (Ok (), w') ∧
    files w' !! "out.pt" = Some (BundleFile obj) ∧
    obj_embeds obj = [1; 3; 5; 7; 9; 11; 13; 15; 17; 19; 21]%Z.
Proof.
  split; [reflexivity|]. split; [reflexivity|]. split; [reflexivity|].
  set (w' := (main (λ img : Z, img) Example.globals Example.env
                (set_batch_size 4 Example.args) Example.world11).2).
  assert (main (λ img : Z, img) Example.globals Example.env
            (set_batch_size 4 Example.args) Example.world11 = (Ok (), w')) as Hmain
    by (vm_compute; reflexivity).
  destruct (C6_batch_size_invariance (λ img : Z, img) Example.globals Example.env
              Example.args Example.world11 4 10 ltac:(lia) ltac:(lia)) as [Heq _].
  { intros clip model Hclip Hload. exists (λ p, (p + 1)%Z).
    injection Hclip as <-. injection Hload as <-. reflexivity. }
  exists w'. eexists. split; [exact Hmain|]. split; [by rewrite <- Heq|].
  split; [vm_compute; reflexivity|reflexivity].
Defined.



(** * Further properties of the reader *)

Section ReaderFacts.

Lemma execute_query_groups d rs :
  execute_query d = Ok rs →
  ∃ gens imgs rats pths,
    tbl_generations d = Some gens ∧ tbl_images d = Some imgs ∧
    tbl_ratings d = Some rats ∧ tbl_paths d = Some pths ∧
    record_keys d = keys (group_by_image (joined_rows gens imgs rats pths)) ∧
    rs = select_record <$> group_by_image (joined_rows gens imgs rats pths).
Proof.
  unfold execute_query, rbind.
  destruct (query_groups d) as [|gs] eqn:Hq; [done|]. intros [= <-].
  destruct (query_groups_inv d gs Hq)
    as (gens & imgs & rats & pths & Hg & Hi & Hr & Hp & ->).
  exists gens, imgs, rats, pths. do 4 (split; [done|]).
  split; [|done]. unfold record_keys. by rewrite Hq.
Qed.

(** The first row of a group is a row of the join that carries its key. *)
Lemma group_first_row rows g :
  g ∈ group_by_image rows → g.2.1 ∈ rows ∧ jr_iid g.2.1 = g.1.
Proof.
  intros Hg. destruct (group_by_image_groups rows) as (_ & _ & Hrows).
  assert (g.2.1 ∈ filter (λ r, jr_iid r = g.1) rows) as Hin
    by (rewrite <- (Hrows _ Hg); left).
  apply list_elem_of_filter in Hin. tauto.
Qed.

(** X1.  The three plain columns of a returned record belong to the image
    whose ratings it averages: [idx] and [gid] are those of an image row
    with that identifier, [gid] names an existing generation, and
    [filename] is a path stored for that image. *)
Theorem X1_record_columns_belong_to_image d gens imgs rats pths rs :
  tbl_generations d = Some gens → tbl_images d = Some imgs →
  tbl_ratings d = Some rats → tbl_paths d = Some pths →
  execute_query d = Ok rs →
  Forall2 (λ i r, ∃ img g p,
      img ∈ imgs ∧ img_id img = i ∧ img_gid img = gid r ∧ img_idx img = idx r ∧
      g ∈ gens ∧ gen_id g = gid r ∧
      p ∈ pths ∧ path_iid p = i ∧ path_path p = filename r)
    (record_keys d) rs.
Proof.
  intros Hg Hi Hr Hp Hq.
  destruct (execute_query_groups d rs Hq)
    as (gens' & imgs' & rats' & pths' & Hg' & Hi' & Hr' & Hp' & -> & ->).
  assert (gens' = gens) as -> by congruence. assert (imgs' = imgs) as -> by congruence.
  assert (rats' = rats) as -> by congruence. assert (pths' = pths) as -> by congruence.
  unfold keys. apply Forall2_fmap, Forall_Forall2_diag, Forall_forall.
  intros grp Hin. destruct (group_first_row _ _ Hin) as [Hrow Hkey].
  unfold joined_rows in Hrow.
  apply list_elem_of_bind in Hrow as (img & Hrow & Himg).
  apply join_image_elem in Hrow as (g & rt & p & ? & ? & ? & ? & ? & ? & Erow).
  rewrite Erow in Hkey. simpl in Hkey.
  exists img, g, p. unfold select_record. rewrite Erow. simpl.
  repeat split; congruence.
Qed.

End ReaderFacts.

Lemma X1_witness :
  ∃ rs, execute_query Example.store = Ok rs ∧
        filename <$> rs = ["a.png"; "b.png"; "c.png"] ∧
        ∀ r, rs !! 2 = Some r →
          ∃ p, p ∈ default [] (tbl_paths Example.store) ∧
               path_iid p = 3%Z ∧ path_path p = filename r.
Proof.
  eexists. split; [reflexivity|]. split; [reflexivity|].
  intros r Hr.
  pose proof (X1_record_columns_belong_to_image Example.store _ _ _ _ _
                eq_refl eq_refl eq_refl eq_refl eq_refl) as Hall.
  destruct (Forall2_lookup_lr _ _ _ 2 3%Z r Hall eq_refl Hr)
    as (img & g & p & _ & _ & _ & _ & _ & _ & Hp & Hpi & Hpp).
  exists p. done.
Defined.

(** * Further properties of the batch sampler *)

Section SamplerFacts.

(** Indices that fill the batch under construction are yielded with it. *)
Lemma batch_sampler_from_fill bs batch l1 l2 :
  l1 ≠ [] → length batch + length l1 = bs →
  batch_sampler_from bs batch (l1 ++ l2)
    = (batch ++ l1) :: batch_sampler_from bs [] l2.
Proof.
  revert batch. induction l1 as [|x l1 IH]; intros batch Hne Hlen; [done|].
  simpl. destruct (Nat.eqb_spec (length (batch ++ [x])) bs) as [E|E].
  - rewrite length_app in E. simpl in *.
    destruct l1; [done|simpl in *; lia].
  - rewrite length_app in E. simpl in *.
    destruct l1 as [|y l1]; [simpl in *; lia|].
    rewrite IH; [by rewrite <- app_assoc|done|].
    rewrite length_app. simpl in *. lia.
Qed.

(** Indices that do not fill it are yielded at the end. *)
Lemma batch_sampler_from_short bs batch l :
  batch ++ l ≠ [] → length batch + length l < bs →
  batch_sampler_from bs batch l = [batch ++ l].
Proof.
  revert batch. induction l as [|x l IH]; intros batch Hne Hlen; simpl.
  - rewrite app_nil_r in *. destruct batch; [done|]. done.
  - destruct (Nat.eqb_spec (length (batch ++ [x])) bs) as [E|E].
    + rewrite length_app in E. simpl in *. lia.
    + rewrite IH; [by rewrite <- app_assoc| |].
      * by destruct batch.
      * rewrite length_app. simpl in *. lia.
Qed.

Lemma batch_sampler_seq_step (bs a n : nat) :
  0 < bs → (bs ≤ n)%nat →
  batch_sampler bs (seq a n) = seq a bs :: batch_sampler bs (seq (a + bs) (n - bs)).
Proof.
  intros Hbs Hn. unfold batch_sampler.
  replace n with (bs + (n - bs)) at 1 by lia. rewrite seq_app.
  rewrite batch_sampler_from_fill; [done| |by rewrite length_seq].
  destruct bs; [lia|done].
Qed.

Lemma batch_sampler_seq_last (bs a n : nat) :
  0 < n → n < bs → batch_sampler bs (seq a n) = [seq a n].
Proof.
  intros Hn Hlt. unfold batch_sampler. rewrite batch_sampler_from_short; [done| |].
  - destruct n; [lia|done].
  - rewrite length_seq. simpl. lia.
Qed.

Lemma batch_sampler_seq_lookup (bs k a n : nat) :
  0 < bs → k * bs < n →
  batch_sampler bs (seq a n) !! k = Some (seq (a + k * bs) (bs `min` (n - k * bs))).
Proof.
  intros Hbs. revert a n. induction k as [|k IH]; intros a n Hk.
  - simpl in *. rewrite Nat.add_0_r, Nat.sub_0_r.
    destruct (decide (bs ≤ n)%nat) as [Hle|Hgt].
    + rewrite batch_sampler_seq_step by done. simpl. by rewrite Nat.min_l.
    + rewrite batch_sampler_seq_last by lia. simpl. by rewrite Nat.min_r by lia.
  - rewrite batch_sampler_seq_step by (simpl in *; lia). simpl.
    rewrite IH by (simpl in *; lia). f_equal. f_equal; simpl; lia.
Qed.


End SamplerFacts.

(** * Further properties of the dataset, the loader and [main] *)

Section Further.

Context {Image Pixels Emb : Type}.
Variable convert_RGB : Image → Image.

#[local] Abbreviation World := (@World Image Emb).
#[local] Abbreviation SimulacraDataset := (@SimulacraDataset Image Pixels).
#[local] Abbreviation DataLoader := (@DataLoader Image Pixels).
#[local] Abbreviation ClipModel := (@ClipModel Image Pixels Emb).
#[local] Abbreviation ClipModule := (@ClipModule Image Pixels Emb).
#[local] Abbreviation PyObject := (@PyObject Image Pixels Emb).
#[local] Abbreviation Bundle := (@Bundle Emb).

Implicit Types (w : World) (self : SimulacraDataset) (loader : DataLoader).
Implicit Types (env : TorchEnv) (args : Args) (globals : gmap string PyObject).

Ltac step H := rewrite H; unfold Ok, Err; cbv beta iota.

Lemma SimulacraDataset_init_files (dir location : string)
    (tf : option (Image → Pixels)) w (r : Result SimulacraDataset) w' :
  SimulacraDataset_init dir location tf w = (r, w') →
  writable w' = writable w ∧
  (∀ p, is_Some (files w !! p) → files w' !! p = files w !! p) ∧
  (∀ p, p ≠ location → files w' !! p = files w !! p) ∧
  (∀ ds, r = Ok ds → w' = w).
Proof.
  rewrite SimulacraDataset_init_unfold.
  destruct (files w !! location) as [file|] eqn:Hloc.
  - intros Hinit. assert (w' = w) as -> by (destruct file; congruence).
    by repeat split.
  - destruct (writable w location); intros [= <- <-]; [|done].
    split; [done|]. split; [|split; [|done]].
    + intros p [f Hp]. simpl. apply lookup_insert_ne. congruence.
    + intros p Hp. simpl. by apply lookup_insert_ne.
Qed.

(** X3.  Whatever its outcome, [__init__] changes no file that exists and
    no location other than the database's; when it succeeds it changes
    nothing at all. *)
Theorem X3_reader_changes_no_existing_file (dir location : string)
    (tf : option (Image → Pixels)) w (r : Result SimulacraDataset) w' :
  SimulacraDataset_init dir location tf w = (r, w') →
  writable w' = writable w ∧
  (∀ p, is_Some (files w !! p) → files w' !! p = files w !! p) ∧
  (∀ p, p ≠ location → files w' !! p = files w !! p) ∧
  (∀ ds, r = Ok ds → w' = w).
Proof. apply SimulacraDataset_init_files. Qed.

(** X4.  After a successful [__init__], [len(dataset)] is the number of
    image identifiers that the joins keep, each counted once, and so at
    most the number of image rows. *)
Theorem X4_len_counts_joined_images (dir location : string)
    (tf : option (Image → Pixels)) w ds w' :
  SimulacraDataset_init dir location tf w = (Ok ds, w') →
  ∃ d gens imgs rats pths,
    files w !! location = Some (DbFile d) ∧
    tbl_generations d = Some gens ∧ tbl_images d = Some imgs ∧
    tbl_ratings d = Some rats ∧ tbl_paths d = Some pths ∧
    NoDup (record_keys d) ∧
    (∀ i, i ∈ record_keys d ↔ image_joined gens imgs rats pths i) ∧
    SimulacraDataset_len ds = length (record_keys d) ∧
    (SimulacraDataset_len ds ≤ length imgs)%nat.
Proof.
  rewrite SimulacraDataset_init_unfold. unfold Ok.
  destruct (files w !! location) as [[d| | |]|] eqn:Hloc; try done;
    [|by destruct (writable w location)].
  destruct (execute_query d) as [|rs] eqn:Hq; [done|]. intros [= <- <-].
  destruct (execute_query_groups d rs Hq)
    as (gens & imgs & rats & pths & Hg & Hi & Hr & Hp & Hkeys & ->).
  exists d, gens, imgs, rats, pths. do 5 (split; [done|]).
  set (gs := group_by_image (joined_rows gens imgs rats pths)) in *.
  assert (NoDup (keys gs)) as Hnd by (apply keys_NoDup, group_by_image_groups).
  assert (∀ i, i ∈ keys gs ↔ image_joined gens imgs rats pths i) as Hmem.
  { intros i. unfold gs. by rewrite group_by_image_keys, joined_rows_key. }
  assert (length (select_record <$> gs) = length (keys gs)) as Hlen
    by (unfold keys; by rewrite !length_fmap).
  rewrite Hkeys. unfold SimulacraDataset_len. cbn [self_ratings].
  split; [done|]. split; [done|]. split; [done|].
  rewrite Hlen, <- (length_fmap img_id imgs).
  apply submseteq_length, NoDup_submseteq; [done|].
  intros i (img & ? & <- & _)%Hmem. by apply list_elem_of_fmap_2.
Qed.

(** X5.  Batch number [k] holds the consecutive indices from
    [k * batch_size] on: [batch_size] of them, or as many as are left. *)
Theorem X5_batch_holds_consecutive_indices loader (k : nat) :
  0 < dl_batch_size loader →
  k * dl_batch_size loader < SimulacraDataset_len (dl_dataset loader) →
  DataLoader_batches loader !! k
    = Some (seq (k * dl_batch_size loader)
              (dl_batch_size loader `min`
                 (SimulacraDataset_len (dl_dataset loader) - k * dl_batch_size loader))).
Proof.
  intros Hbs Hk. unfold DataLoader_batches, sequential_sampler.
  by rewrite batch_sampler_seq_lookup.
Qed.


(** *** Samples and the files they read *)

(** When every index of a batch has a sample, the batch is loaded. *)
Lemma next_batch_total loader w transform batch :
  self_transform (dl_dataset loader) = Some transform →
  (∀ i, i ∈ batch →
     ∃ s, SimulacraDataset_getitem convert_RGB (dl_dataset loader) w i = Ok s) →
  ∃ ps qs, next_batch convert_RGB loader w batch = Ok (ps, qs).
Proof.
  intros Htf. induction batch as [|i batch IH]; intros Hall.
  - by exists [], [].
  - rewrite (next_batch_cons _ _ _ transform) by done.
    destruct (Hall i) as [s Hs]; [left|]. rewrite Hs.
    destruct IH as (ps & qs & ->); [intros j Hj; apply Hall; by right|].
    apply getitem_ok in Hs as (r & img & q & _ & _ & _ & ->). rewrite Htf.
    by eexists _, _.
Qed.


(** [main] once the start method is set, the encoder is loaded and the
    store has been read. *)
Lemma main_with_store globals env args w (clip : ClipModule) (model : ClipModel) d rs :
  set_start_method env (start_method args) = Ok () →
  load_global_clip globals = Ok clip →
  clip_load clip (clip_model args) (resolve_device env args) = Ok model →
  files w !! db args = Some (DbFile d) →
  execute_query d = Ok rs →
  main convert_RGB globals env args w =
  match DataLoader_new {| self_images_dir := images_dir args;
                          self_transform := Some (clip_tf model);
                          self_conn := db args; self_ratings := rs |}
          (batch_size args) (num_workers args) with
  | inl e => (inl e, w)
  | inr loader =>
  match start_workers (start_method args) (dl_num_workers loader) with
  | inl e => (inl e, w)
  | inr _ =>
  match main_loop convert_RGB model loader w (DataLoader_batches loader) [] [] with
  | inl e => (inl e, w)
  | inr (embeds, ratings) =>
  match torch_cat embeds with
  | inl e => (inl e, w)
  | inr embeds =>
  match torch_cat ratings with
  | inl e => (inl e, w)
  | inr ratings =>
      torch_save {| obj_clip_model := clip_model args; obj_embeds := embeds;
                    obj_ratings := ratings |} (output args) w
  end end end end end.
Proof.
  intros Hsm Hclip Hload Hdb Hq.
  rewrite main_unfold. step Hsm. step Hclip. step Hload.
  rewrite SimulacraDataset_init_unfold, Hdb. by step Hq.
Qed.

(** X7.  A run that fails before the final write changes no file that
    exists and no location other than the database's: whatever was at
    [--output] is still there. *)
Theorem X7_failed_run_keeps_files globals env args w e w' :
  main convert_RGB globals env args w = (Err e, w') →
  e ≠ SerializationError →
  writable w' = writable w ∧
  (∀ p, is_Some (files w !! p) → files w' !! p = files w !! p) ∧
  (∀ p, p ≠ db args → files w' !! p = files w !! p).
Proof.
  intros Hmain He. rewrite main_unfold in Hmain. unfold Err in *.
  destruct (set_start_method _ _); [by injection Hmain as _ <-|].
  destruct (load_global_clip _); [by injection Hmain as _ <-|].
  destruct (clip_load _ _ _) as [|model]; [by injection Hmain as _ <-|].
  destruct (SimulacraDataset_init _ _ _ w) as [r w1] eqn:Hinit.
  destruct (SimulacraDataset_init_files _ _ _ _ _ _ Hinit) as (Hw & Hex & Hoth & _).
  assert (w' = w1) as ->; [|done].
  destruct r as [|dataset]; [congruence|].
  destruct (DataLoader_new _ _ _) as [|loader]; [congruence|].
  destruct (start_workers _ _); [congruence|].
  destruct (main_loop _ _ _ _ _ _ _) as [|[embeds ratings]]; [congruence|].
  destruct (torch_cat embeds); [congruence|].
  destruct (torch_cat ratings); [congruence|].
  unfold torch_save in Hmain. destruct (writable w1 (output args)); [done|].
  injection Hmain as <- _. done.
Qed.

(** X8.  With the encoder loaded, a store that returns at least one
    record, every record's image readable and its rating a number, a
    positive batch size, workers that start and a writable [--output],
    the run completes: it writes one bundle holding, in record order,
    the embedding of each record's image and each record's rating. *)
Theorem X8_run_completes globals env args w (clip : ClipModule) (model : ClipModel)
    (f : Pixels → Emb) d rs :
  set_start_method env (start_method args) = Ok () →
  load_global_clip globals = Ok clip →
  clip_load clip (clip_model args) (resolve_device env args) = Ok model →
  (∀ b, encode_image model b = f <$> b) →
  files w !! db args = Some (DbFile d) →
  execute_query d = Ok rs → rs ≠ [] →
  (0 < batch_size args)%Z → (0 ≤ num_workers args)%Z →
  start_workers (start_method args) (Z.to_nat (num_workers args)) = Ok () →
  writable w (output args) = true →
  (∀ r, r ∈ rs → ∃ img q,
     files w !! path_join (images_dir args) (filename r) = Some (ImageFile img) ∧
     rating r = Some q) →
  ∃ obj,
    main convert_RGB globals env args w
      = (Ok (), write_file (output args) (BundleFile obj) w) ∧
    obj_clip_model obj = clip_model args ∧
    Forall2 (λ r e, ∃ img,
        files w !! path_join (images_dir args) (filename r) = Some (ImageFile img) ∧
        e = f (clip_tf model (convert_RGB img))) rs (obj_embeds obj) ∧
    Forall2 (λ r q, rating r = Some q) rs (obj_ratings obj).
Proof.
  intros Hsm Hclip Hload Hf Hdb Hq Hne Hbs Hnw Hworkers Hout Hall.
  rewrite (main_with_store globals env args w clip model d rs) by done.
  rewrite DataLoader_new_positive by lia. unfold Ok. cbv beta iota.
  set (dataset := {| self_images_dir := images_dir args;
                     self_transform := Some (clip_tf model);
                     self_conn := db args; self_ratings := rs |}).
  set (loader := {| dl_dataset := dataset; dl_batch_size := Z.to_nat (batch_size args);
                    dl_num_workers := Z.to_nat (num_workers args) |}).
  cbn [dl_num_workers loader]. step Hworkers. fold loader.
  destruct (next_batch_total loader w (clip_tf model) (seq 0 (length rs)) eq_refl)
    as (ps & qs & Hnb).
  { intros i [_ Hi]%elem_of_seq.
    destruct (lookup_lt_is_Some_2 rs i) as [r Hr]; [lia|].
    destruct (Hall r) as (img & q & Hfile & Hrat); [by eapply list_elem_of_lookup_2|].
    unfold SimulacraDataset_getitem, Image_open. cbn [dataset loader dl_dataset
      self_ratings self_images_dir self_transform].
    rewrite Hr, Hfile, Hrat. by eexists. }
  pose proof (main_loop_spec convert_RGB model f loader w (clip_tf model)
                (DataLoader_batches loader) [] [] eq_refl Hf) as Hloop.
  rewrite DataLoader_batches_concat in Hloop.
  change (SimulacraDataset_len (dl_dataset loader)) with (length rs) in Hloop.
  destruct (main_loop _ _ _ _ _ _ _) as [e|[embeds ratings]];
    [rewrite Hnb in Hloop; discriminate|].
  destruct Hloop as (ps' & qs' & Hnb' & Hembeds & Hratings & Hle & Hlr).
  assert (ps' = ps ∧ qs' = qs) as [-> ->]
    by (rewrite Hnb in Hnb'; unfold Ok in Hnb'; split; congruence).
  assert (DataLoader_batches loader ≠ []) as Hbatches.
  { rewrite DataLoader_batches_nil by (simpl; lia). done. }
  assert (torch_cat embeds = inr (concat embeds)) as ->.
  { destruct embeds; [|done]. simpl in Hle. by destruct (DataLoader_batches loader). }
  assert (torch_cat ratings = inr (concat ratings)) as ->.
  { destruct ratings; [|done]. simpl in Hlr. by destruct (DataLoader_batches loader). }
  unfold torch_save. rewrite Hout. eexists. split; [reflexivity|].
  split; [done|]. simpl. rewrite Hembeds, Hratings. simpl.
  apply (next_batch_ok convert_RGB loader w (clip_tf model)) in Hnb
    as (Hlp & Hlq & Hrows); [|done].
  rewrite length_seq in Hlp, Hlq.
  split; apply Forall2_same_length_lookup_2; rewrite ?length_fmap; try done.
  - intros i r e Hr He.
    destruct (Hrows i i) as (r' & img & q & Hr' & Hfile & _ & Hps & _).
    { apply lookup_seq_lt. by eapply lookup_lt_Some. }
    simpl in Hr', Hfile. assert (r' = r) as -> by congruence.
    exists img. split; [done|]. rewrite list_lookup_fmap, Hps in He. by injection He.
  - intros i r q0 Hr Hq0.
    destruct (Hrows i i) as (r' & img & q & Hr' & _ & Hrat & _ & Hqs).
    { apply lookup_seq_lt. by eapply lookup_lt_Some. }
    simpl in Hr'. assert (r' = r) as -> by congruence. congruence.
Qed.


(** X10.  With one or more workers and a start method other than fork,
    the workers cannot be started, because the dataset holds the
    database connection: once the store has been read the run ends with
    that error, whatever the store and the images are. *)
Theorem X10_workers_need_fork globals env args w (clip : ClipModule)
    (model : ClipModel) d rs :
  set_start_method env (start_method args) = Ok () →
  load_global_clip globals = Ok clip →
  clip_load clip (clip_model args) (resolve_device env args) = Ok model →
  files w !! db args = Some (DbFile d) →
  execute_query d = Ok rs →
  (0 < batch_size args)%Z → (0 < num_workers args)%Z →
  start_method args ≠ fork →
  main convert_RGB globals env args w = (Err PicklingError, w).
Proof.
  intros Hsm Hclip Hload Hdb Hq Hbs Hnw Hfork.
  rewrite (main_with_store globals env args w clip model d rs) by done.
  rewrite DataLoader_new_positive by lia. unfold Ok. cbv beta iota.
  cbn [dl_num_workers]. unfold start_workers.
  destruct (Nat.ltb_spec 0 (Z.to_nat (num_workers args))); [|lia].
  by destruct (start_method args).
Qed.

(** X11.  A batch size that is not positive, or a negative worker count,
    is refused when the loader is built, after the encoder has been
    loaded and the store read: the run ends with a ValueError and
    nothing is written. *)
Theorem X11_loader_refuses_arguments globals env args w (clip : ClipModule)
    (model : ClipModel) d rs :
  set_start_method env (start_method args) = Ok () →
  load_global_clip globals = Ok clip →
  clip_load clip (clip_model args) (resolve_device env args) = Ok model →
  files w !! db args = Some (DbFile d) →
  execute_query d = Ok rs →
  (batch_size args ≤ 0)%Z ∨ (num_workers args < 0)%Z →
  main convert_RGB globals env args w = (Err ValueError, w).
Proof.
  intros Hsm Hclip Hload Hdb Hq Hbad.
  rewrite (main_with_store globals env args w clip model d rs) by done.
  unfold DataLoader_new.
  destruct (Z.ltb_spec (num_workers args) 0); [done|].
  destruct (Z.leb_spec (batch_size args) 0); [done|lia].
Qed.

(** X13.  The encoder is applied to whole batches: the tensors that the
    loop accumulates are, batch by batch, the encoder's output on
    between one and [batch_size] images, and the rating tensors have
    one entry per index of their batch. *)
Theorem X13_encoder_sees_whole_batches (model : ClipModel) loader w
    (transform : Image → Pixels) (embeds : list (list Emb)) (ratings : list (list Qc)) :
  self_transform (dl_dataset loader) = Some transform →
  0 < dl_batch_size loader →
  main_loop convert_RGB model loader w (DataLoader_batches loader) [] []
    = Ok (embeds, ratings) →
  Forall2 (λ b e, ∃ ps, length ps = length b ∧
                        0 < length ps ≤ dl_batch_size loader ∧
                        e = encode_image model ps)
    (DataLoader_batches loader) embeds ∧
  Forall2 (λ b qs, length qs = length b) (DataLoader_batches loader) ratings.
Proof.
  intros Htf Hbs Hloop.
  apply main_loop_per_batch in Hloop as (es & qss & -> & -> & Hes & Hqss). simpl.
  pose proof (batch_sampler_from_sizes (dl_batch_size loader) []
                (sequential_sampler (SimulacraDataset_len (dl_dataset loader)))
                Hbs ltac:(simpl; lia)) as Hsizes.
  fold (batch_sampler (dl_batch_size loader)
          (sequential_sampler (SimulacraDataset_len (dl_dataset loader)))) in Hsizes.
  fold (DataLoader_batches loader) in Hsizes.
  split.
  - apply Forall2_same_length_lookup in Hes as [Hlen Hlook].
    apply Forall2_same_length_lookup_2; [done|].
    intros i b e Hb He. destruct (Hlook i b e Hb He) as (ps & qs & Hnb & ->).
    pose proof (Forall_lookup_1 _ _ _ _ Hsizes Hb) as Hsize. simpl in Hsize.
    apply (next_batch_ok convert_RGB loader w transform) in Hnb as (Hlp & _ & _); [|done].
    exists ps. rewrite Hlp. done.
  - eapply Forall2_impl; [exact Hqss|].
    intros b qs (ps & Hnb).
    by apply (next_batch_ok convert_RGB loader w transform) in Hnb as (_ & Hlq & _).
Qed.

(** X14.  A run completes only if the start method is available, the
    encoder loads, the database exists with its four relations and
    returns at least one record, the batch size is positive, the worker
    count is not negative, the workers start, [--output] is writable,
    and every record has a readable image and a rating that is a
    number. *)
Theorem X14_completion_requires globals env args w w' :
  main convert_RGB globals env args w = (Ok (), w') →
  set_start_method env (start_method args) = Ok () ∧
  ∃ (clip : ClipModule) (model : ClipModel) d rs,
    load_global_clip globals = Ok clip ∧
    clip_load clip (clip_model args) (resolve_device env args) = Ok model ∧
    files w !! db args = Some (DbFile d) ∧
    execute_query d = Ok rs ∧ rs ≠ [] ∧
    (0 < batch_size args)%Z ∧ (0 ≤ num_workers args)%Z ∧
    start_workers (start_method args) (Z.to_nat (num_workers args)) = Ok () ∧
    writable w (output args) = true ∧
    ∀ r, r ∈ rs → ∃ img q,
      files w !! path_join (images_dir args) (filename r) = Some (ImageFile img) ∧
      rating r = Some q.
Proof. apply main_Ok_inv. Qed.

End Further.

Lemma X3_witness :
  files (SimulacraDataset_init "imgs" "sac.db" (@None (Z → Z)) Example.world_nodb).2
    !! "imgs/a.png" = Some (ImageFile 100%Z).
Proof.
  destruct (X3_reader_changes_no_existing_file "imgs" "sac.db" (@None (Z → Z))
              Example.world_nodb _ _ (surjective_pairing _)) as (_ & Hkept & _).
  rewrite Hkept; [reflexivity|]. by eexists.
Defined.

Lemma X4_witness :
  ∃ ds w', SimulacraDataset_init "imgs" "sac.db" (@None (Z → Z)) Example.world
             = (Ok ds, w') ∧
           SimulacraDataset_len ds = 3.
Proof.
  destruct (SimulacraDataset_init "imgs" "sac.db" (@None (Z → Z)) Example.world)
    as [[e|ds] w'] eqn:Hinit; [vm_compute in Hinit; discriminate|].
  exists ds, w'. split; [reflexivity|].
  destruct (X4_len_counts_joined_images "imgs" "sac.db" (@None (Z → Z))
              Example.world ds w' Hinit)
    as (d & gens & imgs & rats & pths & Hdb & _ & _ & _ & _ & _ & _ & Hlen & _).
  injection Hdb as <-. exact Hlen.
Defined.

Lemma X5_witness : DataLoader_batches Example.loader7 !! 2 = Some [6].
Proof.
  exact (X5_batch_holds_consecutive_indices Example.loader7 2
           ltac:(vm_compute; lia) ltac:(vm_compute; lia)).
Defined.


Lemma X7_witness :
  ∃ e w', main (λ img : Z, img) Example.globals Example.env Example.args
            Example.world_missing = (Err e, w') ∧
          files w' !! "imgs/a.png" = files Example.world_missing !! "imgs/a.png".
Proof.
  assert (main (λ img : Z, img) Example.globals Example.env Example.args
            Example.world_missing
          = (Err (ImageLoadError "imgs/b.png"), Example.world_missing)) as Hmain
    by (vm_compute; reflexivity).
  exists (ImageLoadError "imgs/b.png"), Example.world_missing. split; [exact Hmain|].
  destruct (X7_failed_run_keeps_files (λ img : Z, img) _ _ _ _ _ _ Hmain
              ltac:(discriminate)) as (_ & Hkept & _).
  apply Hkept. by eexists.
Defined.

Lemma X8_witness :
  ∃ obj, main (λ img : Z, img) Example.globals Example.env Example.args Example.world
           = (Ok (), write_file "out.pt" (BundleFile obj) Example.world) ∧
         length (obj_embeds obj) = 3.
Proof.
  destruct (X8_run_completes (λ img : Z, img) Example.globals Example.env Example.args
              Example.world Example.clip Example.model (λ p, (p + 1)%Z)
              Example.store Example.records
              eq_refl eq_refl eq_refl (λ b, eq_refl) eq_refl eq_refl
              ltac:(discriminate) ltac:(reflexivity) ltac:(discriminate)
              eq_refl eq_refl)
    as (obj & Hmain & _ & Hembeds & _).
  - intros r Hr. apply list_elem_of_In in Hr. simpl in Hr.
    destruct Hr as [<-|[<-|[<-|[]]]]; eexists _, _; split; reflexivity.
  - exists obj. split; [exact Hmain|].
    apply Forall2_length in Hembeds. rewrite <- Hembeds. reflexivity.
Defined.


Lemma X10_witness :
  main (λ img : Z, img) Example.globals Example.env Example.args_default Example.world
  = (Err PicklingError, Example.world).
Proof.
  apply (X10_workers_need_fork (λ img : Z, img) Example.globals Example.env
           Example.args_default Example.world Example.clip Example.model
           Example.store Example.records);
    try reflexivity; discriminate.
Defined.

Lemma X11_witness :
  main (λ img : Z, img) Example.globals Example.env
    (set_batch_size 0 Example.args) Example.world
  = (Err ValueError, Example.world).
Proof.
  apply (X11_loader_refuses_arguments (λ img : Z, img) Example.globals Example.env
           (set_batch_size 0 Example.args) Example.world Example.clip Example.model
           Example.store Example.records);
    try reflexivity. left. discriminate.
Defined.

Lemma X13_witness :
  ∃ embeds ratings,
    main_loop (λ img : Z, img) Example.model Example.loader2 Example.world
      (DataLoader_batches Example.loader2) [] [] = Ok (embeds, ratings) ∧
    length embeds = 2.
Proof.
  destruct (main_loop (λ img : Z, img) Example.model Example.loader2 Example.world
              (DataLoader_batches Example.loader2) [] [])
    as [e|[embeds ratings]] eqn:Hloop; [vm_compute in Hloop; discriminate|].
  exists embeds, ratings. split; [reflexivity|].
  destruct (X13_encoder_sees_whole_batches (λ img : Z, img) Example.model
              Example.loader2 Example.world (clip_tf Example.model) embeds ratings
              eq_refl ltac:(vm_compute; lia) Hloop) as [Hembeds _].
  apply Forall2_length in Hembeds. rewrite <- Hembeds. reflexivity.
Defined.

Lemma X14_witness :
  ∃ w', main (λ img : Z, img) Example.globals Example.env Example.args Example.world
          = (Ok (), w') ∧
        writable Example.world (output Example.args) = true ∧
        files Example.world !! db Example.args = Some (DbFile Example.store).
Proof.
  set (w' := (main (λ img : Z, img) Example.globals Example.env Example.args
                Example.world).2).
  assert (main (λ img : Z, img) Example.globals Example.env Example.args Example.world
          = (Ok (), w')) as Hmain by (vm_compute; reflexivity).
  exists w'. split; [exact Hmain|].
  destruct (X14_completion_requires (λ img : Z, img) _ _ _ _ _ Hmain)
    as (_ & clip & model & d & rs & _ & _ & Hdb & _ & _ & _ & _ & _ & Hout & _).
  split; [exact Hout|]. injection Hdb as <-. reflexivity.
Defined.
